(** * Dosaku: the Agent's capability binding, verified over a shallow embedding

    This development embeds [dosaku/core/agent.py] (class [Agent]) and
    proves the properties its specification states about [learn],
    [memorize], [api], [spawn_subagent] and [remove_subagent].

    Modelling conventions.
    - A Python [dict] is an insertion-ordered association list with the
      run-time behaviour of [d[k]], [d[k] = v], [del d[k]] and [k in d].
    - A Python call that may raise returns [Result A * S]: the outcome and
      the state reached, which Python keeps when an exception unwinds.
    - Objects that the code shares by reference (Actor classes, Actor
      instances, short-term modules) live in a store and are named by their
      address; the agent's dynamic attributes hold addresses.
    - The attributes that [setattr(self, task, ...)] creates are kept in a
      name space of their own ([attrs]); task and short-term-module names are
      taken to differ from the names the class [Agent] itself defines.
    - [print] is not modelled. *)

From Stdlib Require Import String Ascii List Bool Arith Lia.
From stdpp Require Import base list.
Import ListNotations.
Local Open Scope string_scope.
Local Open Scope list_scope.

(** ** Python dictionaries *)

Module PyDict.

Section Ops.
Context {V : Type}.

Definition dict := list (string * V).

Definition empty : dict := [].

(** [d[k]], [None] standing for [KeyError]. *)
Fixpoint get (k : string) (d : dict) : option V :=
  match d with
  | [] => None
  | (k', v) :: r => if String.eqb k k' then Some v else get k r
  end.

(** [k in d] *)
Definition mem (k : string) (d : dict) : bool :=
  match get k d with Some _ => true | None => false end.

(** [d[k] = v]: an existing key keeps its position, a new one goes last. *)
Fixpoint set (k : string) (v : V) (d : dict) : dict :=
  match d with
  | [] => [(k, v)]
  | (k', v') :: r =>
      if String.eqb k k' then (k, v) :: r else (k', v') :: set k v r
  end.

(** [list(d.keys())] and [list(d)] *)
Definition keys (d : dict) : list string := map fst d.

Definition remove (k : string) (d : dict) : dict :=
  List.filter (fun kv => negb (String.eqb k (fst kv))) d.

(** [del d[k]], [None] standing for [KeyError]. *)
Definition del (k : string) (d : dict) : option dict :=
  if mem k d then Some (remove k d) else None.

(** What the run time guarantees of every dictionary: keys are unique. *)
Definition wf (d : dict) : Prop := List.NoDup (keys d).

End Ops.

Arguments dict V : clear implicits.

End PyDict.

Import PyDict.

(** ** Exceptions and the state-and-exception monad *)

Inductive Exn : Type :=
| ModuleForTaskNotFound
| ServicePermissionRequired
| ExecutorPermissionRequired
| IndexError
| KeyError (key : string)
| ValueError (msg : string)
| AttributeError (attr : string)
| TypeError
| ConstructorError (msg : string).

Inductive Result (A : Type) : Type :=
| Ok (a : A)
| Raised (e : Exn).

Arguments Ok {A} a.
Arguments Raised {A} e.

Definition M (S A : Type) : Type := S -> Result A * S.

Definition ret {S A} (a : A) : M S A := fun s => (Ok a, s).

Definition raise {S A} (e : Exn) : M S A := fun s => (Raised e, s).

Definition bind {S A B} (m : M S A) (k : A -> M S B) : M S B :=
  fun s =>
    match m s with
    | (Ok a, s') => k a s'
    | (Raised e, s') => (Raised e, s')
    end.

Notation "x <- m ;; k" := (bind m (fun x => k))
  (at level 100, m at next level, right associativity).
Notation "m ;;; k" := (bind m (fun _ => k))
  (at level 100, right associativity).

Definition gets {S A} (f : S -> A) : M S A := fun s => (Ok (f s), s).

Definition modify {S} (f : S -> S) : M S unit := fun s => (Ok tt, f s).

(** [for x in l: body(x)] *)
Fixpoint for_each {S A} (l : list A) (body : A -> M S unit) : M S unit :=
  match l with
  | [] => ret tt
  | x :: r => body x ;;; for_each r body
  end.

(** ** Strings *)

(** [sub in s] on Python strings. *)
Fixpoint contains (sub s : string) : bool :=
  match s with
  | EmptyString => String.prefix sub EmptyString
  | String _ r => String.prefix sub s || contains sub r
  end.

(** [list(s)] on a Python string: its one-character strings. *)
Fixpoint chars (s : string) : list string :=
  match s with
  | EmptyString => []
  | String c r => String c EmptyString :: chars r
  end.

(** ** The two registries the agent delegates to

    [dosaku.task_hub] and [dosaku.module_manager] are imported by
    [agent.py]; their classes are not part of the sources at hand. *)

Module TaskHub.

(** Modelled from the spec: one entry of the Task Registry (its class is
    missing from the sources): the task's ordered action names, its
    documentation, and the modules that declared the task, in registration
    order. *)
Record TaskInfo : Type := mkTaskInfo {
  actions : list string;
  docs : dict string;
  modules : list string
}.

(** Modelled from the spec: the Task Registry, a catalog from task name to
    its entry; [agent.py] reads it as the mapping [task_hub.tasks]. *)
Record t : Type := mk { tasks : dict TaskInfo }.

(** Modelled from the spec: [registered_modules(taskName)], the modules
    that declared the task, in registration order, "empty/absent if none":
    absent ([None]) for a name the registry does not hold, possibly empty
    for a task nobody implements. *)
Definition registered_modules (h : t) (task : string) : option (list string) :=
  match get task (tasks h) with
  | Some i => Some (modules i)
  | None => None
  end.

(** Modelled from the spec: [api(taskName)], the ordered action names the
    task exposes; a name the registry does not hold has none, and the
    lookup raises. *)
Definition api (h : t) (task : string) : Result (list string) :=
  match get task (tasks h) with
  | Some i => Ok (actions i)
  | None => Raised (KeyError task)
  end.

End TaskHub.

(** A callable fetched from a module instance or held by a short-term
    module: the [__name__] of the function behind it and the identity of
    the object it is bound to. *)
Record Callable : Type := mkCallable {
  c_name : string;
  c_self : nat
}.

(** Keyword arguments forwarded to a module's constructor. *)
Definition Config : Type := list (string * string).

Module ModuleManager.

(** Modelled from the spec: a Module as the Module Registry knows it (the
    class is missing from the sources): whether it requires the services
    and the executors permission, the attributes its instances offer (each
    attribute name with the [__name__] of the function it denotes), and
    the message of the error its constructor raises, if any, for a given
    configuration. *)
Record ModuleDecl : Type := mkModuleDecl {
  is_service : bool;
  is_executor : bool;
  methods : dict string;
  init_error : Config -> option string
}.

(** Modelled from the spec: a loaded module instance, with the identity it
    got when it was constructed and the configuration it was built with. *)
Record Instance : Type := mkInstance {
  inst_id : nat;
  inst_config : Config;
  inst_methods : dict string
}.

(** Modelled from the spec: the Module Registry: the declared modules, the
    cache of loaded instances by module name ([module_manager.modules]) and
    the number of instances constructed so far. *)
Record t : Type := mk {
  declared : dict ModuleDecl;
  modules : dict Instance;
  constructed : nat
}.

(** Modelled from the spec: [load_module(name, forceReload, allowServices,
    allowExecutors, **config)]. A cached instance is returned unchanged
    unless a reload is forced. Otherwise the declared permissions are
    checked against the caller's flags (services first), failing without
    caching; on success the instance is constructed, replaces the cache
    entry and is returned. A constructor's own failure passes through. The
    spec does not say what a name that no module declares gives: the
    lookup raises here. *)
Definition load_module (name : string) (force_reload : bool)
  (allow_services allow_executors : bool) (kwargs : Config)
  : M t Instance :=
  fun mm =>
    match get name (modules mm), force_reload with
    | Some inst, false => (Ok inst, mm)
    | _, _ =>
        match get name (declared mm) with
        | None => (Raised (KeyError name), mm)
        | Some d =>
            if is_service d && negb allow_services
            then (Raised ServicePermissionRequired, mm)
            else if is_executor d && negb allow_executors
            then (Raised ExecutorPermissionRequired, mm)
            else
              match init_error d kwargs with
              | Some msg => (Raised (ConstructorError msg), mm)
              | None =>
                  let inst := mkInstance (constructed mm) kwargs (methods d) in
                  (Ok inst,
                   mk (declared mm) (set name inst (modules mm))
                      (S (constructed mm)))
              end
        end
    end.

(** Modelled from the spec: [get_module_attr(name, actionName)], the
    callable bound to the cached instance; fails with
    ModuleForTaskNotFound when the module is not loaded, and as Python's
    [getattr] does when the instance has no such attribute. *)
Definition get_module_attr (name method : string) : M t Callable :=
  fun mm =>
    match get name (modules mm) with
    | None => (Raised ModuleForTaskNotFound, mm)
    | Some inst =>
        match get method (inst_methods inst) with
        | None => (Raised (AttributeError method), mm)
        | Some fname => (Ok (mkCallable fname (inst_id inst)), mm)
        end
    end.

End ModuleManager.

(** ** Objects shared by reference *)

(** Modelled from the spec: [dosaku.core.actor.Actor] (missing from the
    sources) is the empty base of every per-binding class; a class
    [_Actor(Actor)] therefore only carries the attributes [learn] sets on
    it. *)
Record ActorClass : Type := mkActorClass {
  cls_attrs : dict Callable
}.

(** An instance of some [_Actor] class, with its own attributes. *)
Record ActorObj : Type := mkActorObj {
  obj_class : nat;
  obj_attrs : dict Callable
}.

(** Modelled from the spec: a short-term module (class missing from the
    sources) has a name and an ordered mapping from action names to
    callables, returned by [api()]. *)
Record ShortTermModule : Type := mkShortTermModule {
  stm_name : string;
  stm_api : dict Callable
}.

(** What an attribute set on an agent refers to. *)
Inductive Value : Type :=
| VActor (oid : nat)
| VStm (p : nat).

(** Everything outside one agent: the two class-level registries every
    agent shares, and the object store. Addresses are positions. *)
Record World : Type := mkWorld {
  task_hub : TaskHub.t;
  module_manager : ModuleManager.t;
  classes : list ActorClass;
  objects : list ActorObj;
  stms : list ShortTermModule
}.

Definition with_module_manager (mm : ModuleManager.t) (w : World) : World :=
  mkWorld (task_hub w) mm (classes w) (objects w) (stms w).

Definition with_classes (cs : list ActorClass) (w : World) : World :=
  mkWorld (task_hub w) (module_manager w) cs (objects w) (stms w).

Definition with_objects (os : list ActorObj) (w : World) : World :=
  mkWorld (task_hub w) (module_manager w) (classes w) os (stms w).

(** Attribute lookup through an Actor instance: the instance's own
    attributes first, then its class. *)
Definition actor_getattr (w : World) (oid : nat) (attr : string)
  : option Callable :=
  match objects w !! oid with
  | None => None
  | Some o =>
      match get attr (obj_attrs o) with
      | Some c => Some c
      | None =>
          match classes w !! obj_class o with
          | Some c => get attr (cls_attrs c)
          | None => None
          end
      end
  end.

(** Lookup of an operator hook ([actor(...)] looks up [__call__]): Python
    consults the type only. *)
Definition actor_type_getattr (w : World) (oid : nat) (attr : string)
  : option Callable :=
  match objects w !! oid with
  | None => None
  | Some o =>
      match classes w !! obj_class o with
      | Some c => get attr (cls_attrs c)
      | None => None
      end
  end.

(** ** The agent *)

(** Modelled from the spec: [dosaku.utils.ifnone] (missing from the
    sources): an unspecified value defaults to [default]. *)
Definition ifnone {A : Type} (value : option A) (default : A) : A :=
  match value with
  | Some v => v
  | None => default
  end.

(** Modelled from the spec: a [Task] object (the class is missing from the
    sources), of which [learn] reads the name only. *)
Record Task : Type := mkTask { task_name : string }.

(** [task: Union[str, Task]] *)
Inductive TaskArg : Type :=
| ByName (n : string)
| ByTask (t : Task).

(** [actions: Optional[Union[str, List[str]]]] *)
Inductive ActionsArg : Type :=
| NoActions
| ActionsStr (s : string)
| ActionsList (l : list string).

Module Agent.

#[warnings="-register-all"]
Inductive t : Type := mk {
  name : string;
  _known_tasks : dict (list string);
  _memorized_tasks : dict (list string);
  _allow_services : bool;
  _allow_executors : bool;
  subagents : dict t;
  attrs : dict Value
}.

(** [Agent.__init__] *)
Definition init (name : string) (enable_services enable_executors : bool) : t :=
  mk name empty empty enable_services enable_executors empty empty.

Definition with_known_tasks (d : dict (list string)) (a : t) : t :=
  mk (name a) d (_memorized_tasks a) (_allow_services a) (_allow_executors a)
     (subagents a) (attrs a).

Definition with_memorized_tasks (d : dict (list string)) (a : t) : t :=
  mk (name a) (_known_tasks a) d (_allow_services a) (_allow_executors a)
     (subagents a) (attrs a).

Definition with_allow_services (b : bool) (a : t) : t :=
  mk (name a) (_known_tasks a) (_memorized_tasks a) b (_allow_executors a)
     (subagents a) (attrs a).

Definition with_allow_executors (b : bool) (a : t) : t :=
  mk (name a) (_known_tasks a) (_memorized_tasks a) (_allow_services a) b
     (subagents a) (attrs a).

Definition with_subagents (d : dict t) (a : t) : t :=
  mk (name a) (_known_tasks a) (_memorized_tasks a) (_allow_services a)
     (_allow_executors a) d (attrs a).

Definition with_attrs (d : dict Value) (a : t) : t :=
  mk (name a) (_known_tasks a) (_memorized_tasks a) (_allow_services a)
     (_allow_executors a) (subagents a) d.

(** The state a method of one agent runs in: the agent and the world. *)
Definition St : Type := t * World.

Definition known_tasks (a : t) : list string := keys (_known_tasks a).

Definition memorized_tasks (a : t) : list string := keys (_memorized_tasks a).

Definition tasks (a : t) : list string := known_tasks a ++ memorized_tasks a.

Definition learnable_tasks (w : World) : list string :=
  keys (TaskHub.tasks (task_hub w)).

Definition registered_modules (w : World) (task : string)
  : option (list string) :=
  TaskHub.registered_modules (task_hub w) task.

Definition loaded_modules (w : World) : dict ModuleManager.Instance :=
  ModuleManager.modules (module_manager w).

Definition services_enabled (a : t) : bool := _allow_services a.

Definition executors_enabled (a : t) : bool := _allow_executors a.

Definition enable_services (a : t) : t := with_allow_services true a.

Definition disable_services (a : t) : t := with_allow_services false a.

Definition enable_executors (a : t) : t := with_allow_executors true a.

Definition disable_executors (a : t) : t := with_allow_executors false a.

Definition _assert_services_enabled : M t unit :=
  fun a =>
    if negb (services_enabled a) then (Raised ServicePermissionRequired, a)
    else (Ok tt, a).

Definition _assert_executors_enabled : M t unit :=
  fun a =>
    if negb (executors_enabled a) then (Raised ExecutorPermissionRequired, a)
    else (Ok tt, a).

Definition spawn_subagent (name : string)
  (enable_services enable_executors : option bool) : M t unit :=
  fun self =>
    let enable_services := ifnone enable_services (services_enabled self) in
    let enable_executors := ifnone enable_executors (executors_enabled self) in
    if mem name (subagents self)
    then (Raised (ValueError ("Sub agent " ++ name ++ " already exists.")), self)
    else
      (Ok tt,
       with_subagents
         (set name (init name enable_services enable_executors) (subagents self))
         self).

Definition remove_subagent (name : string) : M t unit :=
  fun self =>
    match del name (subagents self) with
    | Some d => (Ok tt, with_subagents d self)
    | None => (Raised (KeyError name), self)
    end.

(** [api] returns Python's [None] for a task that is neither registered nor
    memorized. *)
Definition api (self : t) (w : World) (task : string)
  : Result (option (list string)) :=
  if mem task (TaskHub.tasks (task_hub w)) then
    match TaskHub.api (task_hub w) task with
    | Ok l => Ok (Some l)
    | Raised e => Raised e
    end
  else if existsb (String.eqb task) (memorized_tasks self) then
    match get task (_memorized_tasks self) with
    | Some l => Ok (Some l)
    | None => Raised (KeyError task)
    end
  else Ok None.

(** *** Steps of [learn] and [memorize] *)

Definition lift_mm {A : Type} (m : M ModuleManager.t A) : M St A :=
  fun s =>
    let (r, mm) := m (module_manager (snd s)) in
    (r, (fst s, with_module_manager mm (snd s))).

Definition hub_api (task : string) : M St (list string) :=
  fun s => (TaskHub.api (task_hub (snd s)) task, s).

(** [class _Actor(Actor)]: a new class object, with no attribute yet. *)
Definition new_actor_class : M St nat :=
  fun s =>
    (Ok (length (classes (snd s))),
     (fst s, with_classes (classes (snd s) ++ [mkActorClass empty]) (snd s))).

(** [_Actor()] *)
Definition new_actor (cid : nat) : M St Value :=
  fun s =>
    (Ok (VActor (length (objects (snd s)))),
     (fst s, with_objects (objects (snd s) ++ [mkActorObj cid empty]) (snd s))).

(** [setattr(self, name, v)] for a name that is none of the attribute
    names of the class [Agent]: a new entry of the agent, or a new value
    for the entry. *)
Definition setattr_self (name : string) (v : Value) : M St unit :=
  modify (fun s => (with_attrs (set name v (attrs (fst s))) (fst s), snd s)).

(** [getattr(self, name)], for such a name. *)
Definition getattr_self (name : string) : M St Value :=
  fun s =>
    match get name (attrs (fst s)) with
    | Some v => (Ok v, s)
    | None => (Raised (AttributeError name), s)
    end.

(** [type(v)] for an Actor. A value that is no Actor, or an address that
    holds no object, is outside the model ([TypeError]); [learn] meets
    neither, since it reads back the Actor it has just attached. *)
Definition type_of (v : Value) : M St nat :=
  fun s =>
    match v with
    | VActor oid =>
        match objects (snd s) !! oid with
        | Some o => (Ok (obj_class o), s)
        | None => (Raised TypeError, s)
        end
    | VStm _ => (Raised TypeError, s)
    end.

(** [setattr(actor_class, attr, c)] *)
Definition setattr_class (cid : nat) (attr : string) (c : Callable)
  : M St unit :=
  fun s =>
    match classes (snd s) !! cid with
    | Some k =>
        (Ok tt,
         (fst s,
          with_classes
            (<[cid := mkActorClass (set attr c (cls_attrs k))]> (classes (snd s)))
            (snd s)))
    | None => (Raised TypeError, s)
    end.

(** [setattr(actor_object, attr, c)] *)
Definition setattr_object (v : Value) (attr : string) (c : Callable)
  : M St unit :=
  fun s =>
    match v with
    | VActor oid =>
        match objects (snd s) !! oid with
        | Some o =>
            (Ok tt,
             (fst s,
              with_objects
                (<[oid := mkActorObj (obj_class o) (set attr c (obj_attrs o))]>
                   (objects (snd s)))
                (snd s)))
        | None => (Raised TypeError, s)
        end
    | VStm _ => (Raised TypeError, s)
    end.

Definition task_name_of (task : TaskArg) : string :=
  match task with
  | ByName n => n
  | ByTask t => task_name t
  end.

(** Lines 112-116 of [learn]: the module to use. *)
Definition resolve_module (task : string) (module : option string)
  : M St string :=
  match module with
  | Some m => ret m
  | None =>
      modules <- gets (fun s => TaskHub.registered_modules (task_hub (snd s)) task) ;;
      match modules with
      | None => raise ModuleForTaskNotFound
      | Some l =>
          match l !! 0 with
          | Some m => ret m
          | None => raise IndexError
          end
      end
  end.

(** The body of the loop of [learn], lines 137-143. *)
Definition attach (task module method : string) : M St unit :=
  module_attr <- lift_mm (ModuleManager.get_module_attr module method) ;;
  if contains "__" (c_name module_attr) then
    v <- getattr_self task ;;
    actor_class <- type_of v ;;
    setattr_class actor_class method module_attr
  else
    actor_object <- getattr_self task ;;
    setattr_object actor_object method module_attr.

(** Lines 131-144 of [learn]: what follows the loading of the module. *)
Definition bind_actor (task module : string) : M St unit :=
  cid <- new_actor_class ;;
  actor <- new_actor cid ;;
  setattr_self task actor ;;;
  methods <- hub_api task ;;
  for_each methods (attach task module) ;;;
  methods' <- hub_api task ;;
  modify (fun s =>
    (with_known_tasks (set task methods' (_known_tasks (fst s))) (fst s), snd s)).

Definition learn (task : TaskArg) (module : option string)
  (force_relearn : bool) (kwargs : Config) : M St unit :=
  let task := task_name_of task in
  module <- resolve_module task module ;;
  services <- gets (fun s => services_enabled (fst s)) ;;
  executors <- gets (fun s => executors_enabled (fst s)) ;;
  lift_mm (ModuleManager.load_module module force_relearn services executors
             kwargs) ;;;
  bind_actor task module.

(** [memorize(stm, actions)]; [stm] is the address of the short-term
    module. An address that holds no object is outside the model. *)
Definition memorize (stm : nat) (actions : ActionsArg) : M St unit :=
  fun s =>
    match stms (snd s) !! stm with
    | None => (Raised TypeError, s)
    | Some obj =>
        (setattr_self (stm_name obj) (VStm stm) ;;;
         let actions :=
           match actions with
           | NoActions => keys (stm_api obj)
           | ActionsStr str => chars str
           | ActionsList l => l
           end in
         modify (fun s =>
           (with_memorized_tasks
              (set (stm_name obj) actions (_memorized_tasks (fst s))) (fst s),
            snd s))) s
    end.

End Agent.

(** ** The binding loop, seen from outside

    [learn] attaches callables to the one class and the one instance it has
    just created. The two functions below describe that effect directly;
    [for_each_attach] proves that the loop of [learn] computes them. *)

(** The world once [learn] has created its class and its instance, the
    class holding the attributes [ca] and the instance [oa]. *)
Definition extended (w : World) (ca oa : dict Callable) : World :=
  mkWorld (task_hub w) (module_manager w)
    (classes w ++ [mkActorClass ca])
    (objects w ++ [mkActorObj (length (classes w)) oa])
    (stms w).

(** The attributes of the class ([ca]) and of the instance ([oa]) after the
    loop has gone through [methods], or up to the first fetch that fails. *)
Fixpoint attach_all (mm : ModuleManager.t) (module : string)
  (methods : list string) (ca oa : dict Callable)
  : Result unit * (dict Callable * dict Callable) :=
  match methods with
  | [] => (Ok tt, (ca, oa))
  | m :: r =>
      match fst (ModuleManager.get_module_attr module m mm) with
      | Ok c =>
          if contains "__" (c_name c)
          then attach_all mm module r (set m c ca) oa
          else attach_all mm module r ca (set m c oa)
      | Raised e => (Raised e, (ca, oa))
      end
  end.

(** Every Actor instance of the store has its class in the store. *)
Definition heap_ok (w : World) : bool :=
  forallb (fun o => Nat.ltb (obj_class o) (length (classes w))) (objects w).

(** What the agent's attribute [attr] denotes when it is a short-term
    module: the object now at the address the attribute holds. *)
Definition getattr_stm (a : Agent.t) (w : World) (attr : string)
  : option ShortTermModule :=
  match get attr (Agent.attrs a) with
  | Some (VStm p) => stms w !! p
  | _ => None
  end.

(** The dictionaries of an agent have unique keys, as every Python
    dictionary has. *)
Definition agent_wf (a : Agent.t) : Prop :=
  wf (Agent._known_tasks a) /\ wf (Agent._memorized_tasks a) /\
  wf (Agent.subagents a) /\ wf (Agent.attrs a).

(** ** Sample registries

    The modules and tasks the sources name, and two modules that show what
    the binding depends on. *)

Module Samples.

Definition no_error : Config -> option string := fun _ => None.

Definition chat_methods : dict string :=
  [("message", "message"); ("__call__", "__call__")].

(** [EchoBot], the module the docstring of [Chat.message] uses. *)
Definition EchoBot : ModuleManager.ModuleDecl :=
  ModuleManager.mkModuleDecl false false chat_methods no_error.

(** [OpenAIChat] requires the OpenAI service. *)
Definition OpenAIChat : ModuleManager.ModuleDecl :=
  ModuleManager.mkModuleDecl true false chat_methods no_error.

(** [ClipdropTextToImage(Service)]; its registration for [TextToImage] is
    commented out in the sources. *)
Definition ClipdropTextToImage : ModuleManager.ModuleDecl :=
  ModuleManager.mkModuleDecl true false
    [("text_to_image", "text_to_image"); ("__call__", "__call__")] no_error.

Definition BARTZeroShotClassifier : ModuleManager.ModuleDecl :=
  ModuleManager.mkModuleDecl false false
    [("classify", "classify"); ("__call__", "__call__")] no_error.

(** A chat module whose class body says [__call__ = message]: the
    attribute [__call__] denotes the function named [message]. *)
Definition AliasBot : ModuleManager.ModuleDecl :=
  ModuleManager.mkModuleDecl false false
    [("message", "message"); ("__call__", "message")] no_error.

(** A module that offers [message] and no call operator. *)
Definition MessageOnly : ModuleManager.ModuleDecl :=
  ModuleManager.mkModuleDecl false false [("message", "message")] no_error.

Definition hub : TaskHub.t :=
  TaskHub.mk
    [("Chat",
      TaskHub.mkTaskInfo ["message"; "__call__"] [] ["EchoBot"; "OpenAIChat"]);
     ("TextToImage",
      TaskHub.mkTaskInfo ["text_to_image"; "__call__"] [] []);
     ("ZeroShotTextClassification",
      TaskHub.mkTaskInfo ["classify"; "__call__"] []
        ["BARTZeroShotClassifier"])].

Definition manager : ModuleManager.t :=
  ModuleManager.mk
    [("EchoBot", EchoBot); ("OpenAIChat", OpenAIChat);
     ("ClipdropTextToImage", ClipdropTextToImage);
     ("BARTZeroShotClassifier", BARTZeroShotClassifier);
     ("AliasBot", AliasBot); ("MessageOnly", MessageOnly)]
    empty 0.

(** A short-term module with the actions [foo] and [bar]. *)
Definition scratch : ShortTermModule :=
  mkShortTermModule "Scratch"
    [("foo", mkCallable "fn1" 100); ("bar", mkCallable "fn2" 100)].

(** The world before any agent has learned anything; [scratch] is at
    address 0. *)
Definition world : World := mkWorld hub manager [] [] [scratch].

(** [Agent()] *)
Definition agent : Agent.t := Agent.init "Agent" false false.

(** [Agent(enable_services=True)] *)
Definition service_agent : Agent.t := Agent.init "Agent" true false.

End Samples.

(** ** The attribute names of the class [Agent]

    [setattr(self, name, v)] writes into the one attribute space of the
    agent. For a name the class or its instances define themselves it does
    something else than adding an entry: it raises for a read-only
    property, replaces an instance field, or hides a method. [attrs] models
    the entries under the other names; the properties about
    [setattr(self, name, ...)] are stated for those names. *)

Definition agent_instance_fields : list string :=
  ["name"; "_known_tasks"; "_memorized_tasks"; "_allow_services";
   "_allow_executors"; "subagents"].

Definition agent_properties : list string :=
  ["learnable_tasks"; "tasks"; "known_tasks"; "memorized_tasks";
   "services_enabled"; "executors_enabled"].

Definition agent_class_attributes : list string :=
  ["config"; "task_hub"; "module_manager"; "register_task"; "spawn_subagent";
   "remove_subagent"; "api"; "doc"; "registered_modules"; "loaded_modules";
   "enable_services"; "disable_services"; "_assert_services_enabled";
   "enable_executors"; "disable_executors"; "_assert_executors_enabled";
   "learn"; "memorize"; "memorize_from_context"].

Definition agent_attribute_names : list string :=
  agent_instance_fields ++ agent_properties ++ agent_class_attributes.

(** A name [setattr] simply adds to the agent: none of the names of
    [agent.py], and none that starts with a double underscore, as the
    attributes every Python object has do. *)
Definition dynamic_name (n : string) : bool :=
  negb (existsb (String.eqb n) agent_attribute_names)
  && negb (String.prefix "__" n).

(** ** [memorize_from_context] *)

(** Modelled from the spec: a [Context] ([dosaku.logic.Context], missing
    from the sources): a working-memory slot that holds a short-term
    module, or nothing, and a conversation log, here the sender and the
    text of each message. *)
Record Context : Type := mkContext {
  short_term_memory : option nat;
  conversation : list (string * string)
}.

(** [Agent.memorize_from_context]. An empty slot is Python's [None], on
    which [memorize] fails when it reads [stm.name]. [Chat] is the class of
    [tasks/chat.py], which defines no attribute [Message]: line 162 raises
    AttributeError when it reads [Chat.Message], after [memorize] has run
    and before the text of the note is built or anything is appended. *)
Definition memorize_from_context (context : Context) : M Agent.St Context :=
  match short_term_memory context with
  | None => raise (AttributeError "name")
  | Some stm =>
      Agent.memorize stm NoActions ;;;
      raise (AttributeError "Message")
  end.

(** ** The Discord front end: chunks of a direct-message reply *)

Module DiscordBot.

(** The first [n] characters of [s]. *)
Fixpoint take (n : nat) (s : string) : string :=
  match n, s with
  | S n', String c r => String c (take n' r)
  | _, _ => EmptyString
  end.

(** [s] without its first [n] characters. *)
Fixpoint drop (n : nat) (s : string) : string :=
  match n, s with
  | S n', String _ r => drop n' r
  | _, _ => s
  end.

(** [text[start:stop]] for indices that are not negative. *)
Definition slice (text : string) (start stop : nat) : string :=
  take (stop - start) (drop start text).

Definition max_len : nat := 2000.

(** Lines 63-68 of [on_message]: the texts passed to
    [message.channel.send], in order. *)
Definition dm_chunks (text : string) : list string :=
  let num_chunks := Nat.max (String.length text / max_len) 1 in
  map (fun idx => slice text (idx * max_len) ((idx + 1) * max_len))
    (seq 0 num_chunks).

(** The characters a sequence of messages shows, one message after the
    other. *)
Definition join (l : list string) : string :=
  fold_right String.append EmptyString l.

End DiscordBot.

(** ** [initial_dosaku_setup] *)

Module Setup.

Inductive SetupError : Type :=
| ConfigKeyError (key : string)
| FileExistsError (path : string)
| OSError (path : string).

Inductive Outcome (A : Type) : Type :=
| Done (a : A)
| Failed (e : SetupError).

Arguments Done {A} a.
Arguments Failed {A} e.

(** The file system, as far as the setup sees it: the paths that exist. *)
Definition FS : Type := list string.

(** [os.path.exists] *)
Definition path_exists (path : string) (fs : FS) : bool :=
  existsb (String.eqb path) fs.

Section MakeDirs.

(** The intermediate directories of a path, as [os.makedirs] finds them. *)
Variable ancestors : string -> list string.

(** The paths the operating system refuses to create in a given file
    system although they do not exist: the empty path, a path through a
    file or ending in [..], a directory that may not be written. *)
Variable refused : string -> FS -> bool.

(** [os.makedirs(path)]: creates the intermediate directories that do not
    exist and the directory itself; raises FileExistsError when the path
    exists, and an OSError when the operating system refuses. *)
Definition makedirs (path : string) (fs : FS) : Outcome FS :=
  if path_exists path fs then Failed (FileExistsError path)
  else if refused path fs then Failed (OSError path)
  else
    Done (fs
          ++ List.filter (fun p => negb (path_exists p fs)) (ancestors path)
          ++ [path]).

(** The first loop of [initial_dosaku_setup], lines 13-17, over the names
    still to visit. *)
Fixpoint make_missing (names : list string) (dir_paths : dict string)
  (fs : FS) (new_dirs : list string) : Outcome (FS * list string) :=
  match names with
  | [] => Done (fs, new_dirs)
  | dir_name :: r =>
      match get dir_name dir_paths with
      | None => Failed (ConfigKeyError dir_name)
      | Some dir_path =>
          if negb (path_exists dir_path fs) then
            match makedirs dir_path fs with
            | Failed e => Failed e
            | Done fs' => make_missing r dir_paths fs' (new_dirs ++ [dir_path])
            end
          else make_missing r dir_paths fs new_dirs
      end
  end.

(** [initial_dosaku_setup], given [config['DIR_PATHS']]: the file system
    it leaves and the lines it logs. *)
Definition initial_dosaku_setup (dir_paths : dict string) (fs : FS)
  : Outcome (FS * list string) :=
  match make_missing (keys dir_paths) dir_paths fs [] with
  | Failed e => Failed e
  | Done (fs', new_dirs) =>
      Done (fs',
            map (fun dir => ("Created new directory: " ++ dir)%string) new_dirs)
  end.

End MakeDirs.

(** A sample: the parents of a path under [/], nearest the root first. *)
Definition sample_ancestors (path : string) : list string :=
  if String.eqb path "/srv/dosaku/data/temp"
  then ["/srv"; "/srv/dosaku"; "/srv/dosaku/data"]
  else if String.eqb path "/srv/dosaku/data"
  then ["/srv"; "/srv/dosaku"]
  else if String.eqb path "/srv/dosaku/logs"
  then ["/srv"; "/srv/dosaku"]
  else [].

(** A sample: an operating system that refuses the empty path only. *)
Definition sample_refused (path : string) (fs : FS) : bool :=
  String.eqb path "".

Definition sample_dir_paths : dict string :=
  [("TEMP", "/srv/dosaku/data/temp"); ("DATA", "/srv/dosaku/data");
   ("LOGS", "/srv/dosaku/logs")].

End Setup.

(** A sample reply of 4500 characters. *)
Fixpoint sample_text (n : nat) : string :=
  match n with
  | 0 => EmptyString
  | S k => String "a" (sample_text k)
  end.

Definition long_reply : string := sample_text 4500.

(** * Facts about dictionaries *)

Section DictFacts.
Context {V : Type}.
Implicit Types (d : dict V) (k : string) (v : V).

Lemma get_set_eq k v d : get k (set k v d) = Some v.
Proof.
  induction d as [|[k' v'] r IH]; simpl.
  - now rewrite String.eqb_refl.
  - destruct (String.eqb k k') eqn:E; simpl; rewrite ?String.eqb_refl, ?E; auto.
Qed.

Lemma get_set_ne k k' v d : k <> k' -> get k' (set k v d) = get k' d.
Proof.
  intros Hne. induction d as [|[k0 v0] r IH]; simpl.
  - destruct (String.eqb_spec k' k); congruence.
  - destruct (String.eqb_spec k k0) as [->|Hk]; simpl.
    + destruct (String.eqb_spec k' k0); congruence.
    + destruct (String.eqb_spec k' k0); auto.
Qed.

Lemma get_Some_In k v d : get k d = Some v -> In k (keys d).
Proof.
  induction d as [|[k' v'] r IH]; simpl; [discriminate|].
  destruct (String.eqb_spec k k') as [->|Hk]; auto.
Qed.

Lemma get_None_notin k d : get k d = None <-> ~ In k (keys d).
Proof.
  induction d as [|[k' v'] r IH]; simpl.
  - tauto.
  - destruct (String.eqb_spec k k') as [->|Hk].
    + split; [discriminate | intros H; exfalso; apply H; auto].
    + rewrite IH. split; [intros H [E|HI]; congruence | tauto].
Qed.

Lemma mem_true_iff k d : mem k d = true <-> In k (keys d).
Proof.
  unfold mem. destruct (get k d) eqn:E.
  - split; auto. intros _. eapply get_Some_In; eauto.
  - apply get_None_notin in E. split; [discriminate | tauto].
Qed.

Lemma mem_false_iff k d : mem k d = false <-> ~ In k (keys d).
Proof.
  rewrite <- mem_true_iff. destruct (mem k d); split; congruence.
Qed.

Lemma mem_set_eq k v d : mem k (set k v d) = true.
Proof. unfold mem. now rewrite get_set_eq. Qed.

Lemma mem_set_ne k k' v d : k <> k' -> mem k' (set k v d) = mem k' d.
Proof. intros H. unfold mem. now rewrite get_set_ne. Qed.

(** Assignment keeps the keys when [k] is present, and appends [k] when it
    is not. *)
Lemma keys_set k v d :
  keys (set k v d) = if mem k d then keys d else keys d ++ [k].
Proof.
  unfold mem. induction d as [|[k' v'] r IH]; simpl; auto.
  destruct (String.eqb_spec k k') as [->|Hk]; simpl; auto.
  rewrite IH. destruct (get k r); auto.
Qed.

Lemma In_keys_set k v d k' : In k' (keys (set k v d)) <-> k' = k \/ In k' (keys d).
Proof.
  rewrite keys_set. destruct (mem k d) eqn:E.
  - apply mem_true_iff in E. split; auto. intros [->|H]; auto.
  - rewrite in_app_iff. simpl. intuition.
Qed.

Lemma wf_empty : wf (@empty V).
Proof. constructor. Qed.

Lemma wf_set k v d : wf d -> wf (set k v d).
Proof.
  unfold wf. intros H. rewrite keys_set. destruct (mem k d) eqn:E; auto.
  apply mem_false_iff in E.
  apply List.NoDup_app; auto.
  - constructor; [simpl; tauto | constructor].
  - intros x Hx [<-|[]]; auto.
Qed.

Lemma count_occ_keys_set k v d :
  wf d -> count_occ string_dec (keys (set k v d)) k = 1.
Proof.
  intros H. apply wf_set with (k := k) (v := v) in H.
  unfold wf in H. rewrite (NoDup_count_occ string_dec) in H.
  specialize (H k).
  assert (Hin : In k (keys (set k v d))) by (apply In_keys_set; auto).
  apply (count_occ_In string_dec) in Hin. lia.
Qed.

Lemma keys_remove k d k' :
  In k' (keys (remove k d)) <-> k' <> k /\ In k' (keys d).
Proof.
  unfold keys, remove. induction d as [|[k0 v0] r IH]; simpl; [tauto|].
  destruct (String.eqb_spec k k0) as [->|Hk]; simpl; rewrite IH; intuition congruence.
Qed.

Lemma mem_remove_eq k d : mem k (remove k d) = false.
Proof. apply mem_false_iff. rewrite keys_remove. tauto. Qed.

Lemma get_remove_ne k k' d : k <> k' -> get k' (remove k d) = get k' d.
Proof.
  intros Hne. unfold remove. induction d as [|[k0 v0] r IH]; simpl; auto.
  destruct (String.eqb_spec k k0) as [->|Hk]; simpl.
  - destruct (String.eqb_spec k' k0); congruence.
  - now rewrite IH.
Qed.

Lemma wf_remove k d : wf d -> wf (remove k d).
Proof.
  unfold wf, keys, remove. induction d as [|[k0 v0] r IH]; simpl; auto.
  intros H. inversion H as [|? ? Hn Hr]; subst.
  destruct (String.eqb_spec k k0) as [->|Hk]; simpl; auto.
  constructor; auto.
  intros Hin. apply Hn.
  change (In k0 (keys (remove k r))) in Hin. apply keys_remove in Hin. tauto.
Qed.

Lemma del_None k d : del k d = None <-> ~ In k (keys d).
Proof.
  unfold del. destruct (mem k d) eqn:E.
  - apply mem_true_iff in E. split; [discriminate | tauto].
  - apply mem_false_iff in E. tauto.
Qed.

Lemma existsb_eqb_mem k d : existsb (String.eqb k) (keys d) = mem k d.
Proof.
  unfold mem. induction d as [|[k0 v0] r IH]; simpl; auto.
  destruct (String.eqb_spec k k0); simpl; auto.
Qed.

End DictFacts.

(** * Facts about strings *)

Lemma prefix_spec sub : forall s,
  String.prefix sub s = true <-> exists b, s = (sub ++ b)%string.
Proof.
  induction sub as [|c r IH]; intros s; simpl.
  - destruct s; simpl; split; eauto.
  - destruct s as [|c' s']; simpl.
    + split; [discriminate | intros [b Hb]; discriminate].
    + destruct (Ascii.ascii_dec c c') as [->|Hne].
      * rewrite IH. split; intros [b Hb]; exists b; congruence.
      * split; [discriminate | intros [b Hb]; congruence].
Qed.

(** [contains sub s] is Python's [sub in s]: [sub] occurs somewhere in
    [s]. *)
Lemma contains_spec sub : forall s,
  contains sub s = true <-> exists a b, s = (a ++ sub ++ b)%string.
Proof.
  induction s as [|c r IH]; cbn [contains].
  - rewrite prefix_spec. split.
    + intros [b Hb]. exists "", b. exact Hb.
    + intros (a & b & H). destruct a; [eauto | discriminate].
  - rewrite orb_true_iff, IH. split.
    + intros [H|(a & b & ->)].
      * apply prefix_spec in H. destruct H as [b Hb]. exists "", b. exact Hb.
      * exists (String c a), b. reflexivity.
    + intros (a & b & H). destruct a as [|c' a']; simpl in H.
      * left. apply (prefix_spec sub (String c r)). eauto.
      * right. injection H as _ ->. eauto.
Qed.

(** * Facts about the registries *)

Lemma with_module_manager_same w : with_module_manager (module_manager w) w = w.
Proof. now destruct w. Qed.

(** A load that fails leaves the Module Registry as it was. *)
Lemma load_module_raised name force s e kwargs mm err mm' :
  ModuleManager.load_module name force s e kwargs mm = (Raised err, mm') ->
  mm' = mm.
Proof.
  unfold ModuleManager.load_module. intros H.
  repeat match type of H with
  | context [match ?x with _ => _ end] => destruct x eqn:?
  | context [if ?x then _ else _] => destruct x eqn:?
  end; congruence.
Qed.

(** Fetching an attribute never changes the Module Registry. *)
Lemma get_module_attr_state name method mm :
  snd (ModuleManager.get_module_attr name method mm) = mm.
Proof.
  unfold ModuleManager.get_module_attr.
  destruct (get name (ModuleManager.modules mm)); auto.
  destruct (get method (ModuleManager.inst_methods i)); auto.
Qed.

(** * The loop of [learn] *)

Section Loop.
Variables (task module : string).

Lemma attach_extended a w ca oa m :
  get task (Agent.attrs a) = Some (VActor (length (objects w))) ->
  Agent.attach task module m (a, extended w ca oa) =
  match fst (ModuleManager.get_module_attr module m (module_manager w)) with
  | Ok c =>
      if contains "__" (c_name c)
      then (Ok tt, (a, extended w (set m c ca) oa))
      else (Ok tt, (a, extended w ca (set m c oa)))
  | Raised e => (Raised e, (a, extended w ca oa))
  end.
Proof.
  intros Hattr.
  unfold Agent.attach, bind, Agent.lift_mm. simpl.
  pose proof (get_module_attr_state module m (module_manager w)) as Hst.
  destruct (ModuleManager.get_module_attr module m (module_manager w))
    as [[c|e] mm'] eqn:Hget; simpl in *; subst mm'.
  - destruct (contains "__" (c_name c)).
    + unfold Agent.getattr_self, Agent.type_of, Agent.setattr_class; simpl.
      rewrite Hattr. simpl.
      rewrite list_lookup_middle by reflexivity. simpl.
      rewrite list_lookup_middle by reflexivity.
      unfold extended, with_classes, with_module_manager; simpl.
      rewrite insert_app_r_alt by lia. rewrite Nat.sub_diag. reflexivity.
    + unfold Agent.getattr_self, Agent.setattr_object; simpl.
      rewrite Hattr. simpl.
      rewrite list_lookup_middle by reflexivity. simpl.
      unfold extended, with_objects, with_module_manager; simpl.
      rewrite insert_app_r_alt by lia. rewrite Nat.sub_diag. reflexivity.
  - reflexivity.
Qed.

(** The loop of [learn] computes [attach_all]. *)
Lemma for_each_attach a w methods : forall ca oa,
  get task (Agent.attrs a) = Some (VActor (length (objects w))) ->
  for_each methods (Agent.attach task module) (a, extended w ca oa) =
  (fst (attach_all (module_manager w) module methods ca oa),
   (a, extended w
         (fst (snd (attach_all (module_manager w) module methods ca oa)))
         (snd (snd (attach_all (module_manager w) module methods ca oa))))).
Proof.
  induction methods as [|m r IH]; intros ca oa Hattr; simpl.
  - reflexivity.
  - unfold bind. rewrite attach_extended by assumption.
    destruct (fst (ModuleManager.get_module_attr module m (module_manager w)))
      as [c|e]; [|reflexivity].
    destruct (contains "__" (c_name c)); apply IH; assumption.
Qed.

End Loop.

(** * [learn], stage by stage *)

(** Resolving the module reads the Task Registry and changes nothing. *)
Lemma resolve_module_state task module s :
  snd (Agent.resolve_module task module s) = s.
Proof.
  unfold Agent.resolve_module. destruct module as [m|]; [reflexivity|].
  unfold bind, gets, ret, raise.
  destruct (TaskHub.registered_modules (task_hub (snd s)) task) as [l|];
    [|reflexivity].
  destruct (l !! 0); reflexivity.
Qed.

(** What follows the loading: the Actor is attached first, then filled,
    and the task is recorded last. *)
Lemma bind_actor_unfold task module a w :
  Agent.bind_actor task module (a, w) =
  let a1 :=
    Agent.with_attrs (set task (VActor (length (objects w))) (Agent.attrs a)) a in
  match TaskHub.api (task_hub w) task with
  | Raised e => (Raised e, (a1, extended w empty empty))
  | Ok methods =>
      match attach_all (module_manager w) module methods empty empty with
      | (Raised e, (ca, oa)) => (Raised e, (a1, extended w ca oa))
      | (Ok _, (ca, oa)) =>
          (Ok tt,
           (Agent.with_known_tasks (set task methods (Agent._known_tasks a1)) a1,
            extended w ca oa))
      end
  end.
Proof.
  unfold Agent.bind_actor, bind at 1. simpl.
  unfold bind at 1. simpl.
  unfold bind at 1. simpl.
  unfold bind at 1, Agent.hub_api at 1. simpl.
  destruct (TaskHub.api (task_hub w) task) as [methods|e] eqn:Hapi;
    [|reflexivity].
  unfold bind at 1.
  change (with_objects _ (with_classes _ w)) with (extended w empty empty).
  rewrite for_each_attach by (simpl; apply get_set_eq).
  destruct (attach_all (module_manager w) module methods empty empty)
    as [[[]|e] [ca oa]]; simpl; [|reflexivity].
  unfold bind, Agent.hub_api. simpl. rewrite Hapi. reflexivity.
Qed.

(** [learn] is its three stages in sequence; a failure of one of the first
    two returns the state it started from. *)
Lemma learn_unfold task module force kwargs a w :
  Agent.learn task module force kwargs (a, w) =
  match fst (Agent.resolve_module (Agent.task_name_of task) module (a, w)) with
  | Raised e => (Raised e, (a, w))
  | Ok m =>
      match ModuleManager.load_module m force (Agent.services_enabled a)
              (Agent.executors_enabled a) kwargs (module_manager w) with
      | (Raised e, _) => (Raised e, (a, w))
      | (Ok _, mm) =>
          Agent.bind_actor (Agent.task_name_of task) m
            (a, with_module_manager mm w)
      end
  end.
Proof.
  unfold Agent.learn, bind at 1.
  pose proof (resolve_module_state (Agent.task_name_of task) module (a, w)) as Hst.
  destruct (Agent.resolve_module (Agent.task_name_of task) module (a, w))
    as [[m|e] s1]; simpl in Hst; subst s1; simpl; [|reflexivity].
  unfold bind, gets, Agent.lift_mm. simpl.
  destruct (ModuleManager.load_module m force (Agent.services_enabled a)
              (Agent.executors_enabled a) kwargs (module_manager w))
    as [[inst|e] mm] eqn:Hload; [reflexivity|].
  apply load_module_raised in Hload. subst mm.
  now rewrite with_module_manager_same.
Qed.

(** * What the loop leaves on the class and on the instance *)

Section AttachAll.
Variables (mm : ModuleManager.t) (module : string).

Lemma attach_all_frame methods : forall ca oa m,
  ~ In m methods ->
  get m (fst (snd (attach_all mm module methods ca oa))) = get m ca /\
  get m (snd (snd (attach_all mm module methods ca oa))) = get m oa.
Proof.
  induction methods as [|m0 r IH]; intros ca oa m Hin; simpl; auto.
  assert (Hne : m0 <> m) by (intros ->; apply Hin; left; reflexivity).
  assert (Hr : ~ In m r) by (intros H; apply Hin; right; exact H).
  destruct (fst (ModuleManager.get_module_attr module m0 mm)) as [c|e];
    simpl; auto.
  destruct (contains "__" (c_name c));
    destruct (IH (set m0 c ca) oa m Hr) as [H1 H2];
    destruct (IH ca (set m0 c oa) m Hr) as [H3 H4];
    rewrite ?get_set_ne in * by assumption; auto.
Qed.

Lemma attach_all_ok methods : forall ca oa,
  fst (attach_all mm module methods ca oa) = Ok tt ->
  forall m, In m methods ->
  exists c,
    fst (ModuleManager.get_module_attr module m mm) = Ok c /\
    if contains "__" (c_name c)
    then get m (fst (snd (attach_all mm module methods ca oa))) = Some c /\
         get m (snd (snd (attach_all mm module methods ca oa))) = get m oa
    else get m (snd (snd (attach_all mm module methods ca oa))) = Some c /\
         get m (fst (snd (attach_all mm module methods ca oa))) = get m ca.
Proof.
  induction methods as [|m0 r IH]; intros ca oa Hok m Hin; [destruct Hin|].
  simpl in *.
  destruct (fst (ModuleManager.get_module_attr module m0 mm)) as [c0|e] eqn:H0;
    [|discriminate].
  destruct (in_dec string_dec m r) as [Hr|Hr].
  - destruct (contains "__" (c_name c0)) eqn:Hd0.
    + destruct (IH _ _ Hok m Hr) as (c & Hc & Hlev). exists c. split; auto.
      destruct (contains "__" (c_name c)) eqn:Hd; auto.
      destruct Hlev as [H1 H2]. split; auto. rewrite H2.
      apply get_set_ne. intros ->. congruence.
    + destruct (IH _ _ Hok m Hr) as (c & Hc & Hlev). exists c. split; auto.
      destruct (contains "__" (c_name c)) eqn:Hd; auto.
      destruct Hlev as [H1 H2]. split; auto. rewrite H2.
      apply get_set_ne. intros ->. congruence.
  - assert (m0 = m) as -> by (destruct Hin; tauto).
    exists c0. split; auto.
    destruct (contains "__" (c_name c0)) eqn:Hd0.
    + destruct (attach_all_frame r (set m c0 ca) oa m Hr) as [H1 H2].
      rewrite H1, H2, get_set_eq. auto.
    + destruct (attach_all_frame r ca (set m c0 oa) m Hr) as [H1 H2].
      rewrite H1, H2, get_set_eq. auto.
Qed.

End AttachAll.

(** * Resolution of the module: claims C1 and C3 *)

(** A task whose list of registered modules is empty makes [modules[0]]
    raise: the test of line 114 only catches an absent list. *)
Lemma learn_empty_module_list task force kwargs a w :
  Agent.registered_modules w (Agent.task_name_of task) = Some [] ->
  Agent.learn task None force kwargs (a, w) = (Raised IndexError, (a, w)).
Proof.
  intros H. rewrite learn_unfold.
  unfold Agent.resolve_module, bind, gets, Agent.registered_modules in *.
  simpl. rewrite H. reflexivity.
Qed.

(** C1, as the code has it: when the Task Registry holds no list of modules
    for the task ([registered_modules] is absent), [learn] without a module
    fails with ModuleForTaskNotFound and leaves the agent and the world as
    they were; the task is then in [known_tasks] afterward exactly when it
    was before, so it is absent afterward if it was absent before. *)
Theorem learn_without_modules_not_found task force kwargs a w :
  Agent.registered_modules w (Agent.task_name_of task) = None ->
  Agent.learn task None force kwargs (a, w) =
    (Raised ModuleForTaskNotFound, (a, w)) /\
  (In (Agent.task_name_of task)
      (Agent.known_tasks
         (fst (snd (Agent.learn task None force kwargs (a, w))))) <->
   In (Agent.task_name_of task) (Agent.known_tasks a)).
Proof.
  intros H.
  assert (E : Agent.learn task None force kwargs (a, w) =
              (Raised ModuleForTaskNotFound, (a, w))).
  { rewrite learn_unfold.
    unfold Agent.resolve_module, bind, gets, Agent.registered_modules in *.
    simpl. rewrite H. reflexivity. }
  split; [exact E|]. rewrite E. simpl. tauto.
Qed.

Lemma learn_without_modules_not_found_witness :
  Agent.learn (ByName "Juggle") None false [] (Samples.agent, Samples.world) =
    (Raised ModuleForTaskNotFound, (Samples.agent, Samples.world)) /\
  ~ In "Juggle"
      (Agent.known_tasks
         (fst (snd (Agent.learn (ByName "Juggle") None false []
                      (Samples.agent, Samples.world))))).
Proof.
  destruct (learn_without_modules_not_found (ByName "Juggle") false []
              Samples.agent Samples.world eq_refl) as [E H].
  split; [exact E|].
  intros Hin. apply H in Hin. simpl in Hin. exact Hin.
Defined.

(** C1 fails as stated. [TextToImage] is registered and no module has
    registered for it; an agent that has learned it through an explicit
    module and calls [learn] again without one gets an IndexError, not
    ModuleForTaskNotFound, and the task is still among its known tasks. *)
Lemma learn_without_modules_counterexample :
  let s1 := snd (Agent.learn (ByName "TextToImage") (Some "ClipdropTextToImage")
                   false [] (Samples.service_agent, Samples.world)) in
  Agent.registered_modules (snd s1) "TextToImage" = Some [] /\
  fst (Agent.learn (ByName "TextToImage") None false [] s1) = Raised IndexError /\
  fst (Agent.learn (ByName "TextToImage") None false [] s1)
    <> Raised ModuleForTaskNotFound /\
  In "TextToImage"
     (Agent.known_tasks
        (fst (snd (Agent.learn (ByName "TextToImage") None false [] s1)))).
Proof.
  vm_compute. repeat split; try discriminate. left; reflexivity.
Qed.

(** C3: when the task has at least one registered module, [learn] without
    a module resolves to the module at index 0, behaves in every respect as
    [learn] called with that module, and leaves the Module Registry in the
    state [load_module] of that module, with the agent's flags, puts it
    in. *)
Theorem learn_default_is_first_registered task force kwargs a w l m0 :
  Agent.registered_modules w (Agent.task_name_of task) = Some l ->
  l !! 0 = Some m0 ->
  Agent.resolve_module (Agent.task_name_of task) None (a, w) = (Ok m0, (a, w)) /\
  Agent.learn task None force kwargs (a, w) =
    Agent.learn task (Some m0) force kwargs (a, w) /\
  module_manager (snd (snd (Agent.learn task None force kwargs (a, w)))) =
    snd (ModuleManager.load_module m0 force (Agent.services_enabled a)
           (Agent.executors_enabled a) kwargs (module_manager w)).
Proof.
  intros Hreg H0.
  assert (Hres : Agent.resolve_module (Agent.task_name_of task) None (a, w)
                 = (Ok m0, (a, w))).
  { unfold Agent.resolve_module, bind, gets, Agent.registered_modules in *.
    simpl. rewrite Hreg, H0. reflexivity. }
  split; [exact Hres|]. split.
  - rewrite !learn_unfold, Hres. reflexivity.
  - rewrite learn_unfold, Hres. simpl.
    destruct (ModuleManager.load_module m0 force (Agent.services_enabled a)
                (Agent.executors_enabled a) kwargs (module_manager w))
      as [[inst|e] mm] eqn:Hload; simpl.
    + rewrite bind_actor_unfold. simpl.
      destruct (TaskHub.api (task_hub w) (Agent.task_name_of task)); simpl;
        [|reflexivity].
      destruct (attach_all mm m0 a0 empty empty) as [[[]|e] [ca oa]];
        reflexivity.
    + apply load_module_raised in Hload. now subst.
Qed.

Lemma learn_default_is_first_registered_witness :
  Agent.learn (ByName "Chat") None false [] (Samples.agent, Samples.world) =
    Agent.learn (ByName "Chat") (Some "EchoBot") false []
      (Samples.agent, Samples.world) /\
  get "EchoBot"
    (Agent.loaded_modules
       (snd (snd (Agent.learn (ByName "Chat") None false []
                    (Samples.agent, Samples.world))))) <> None.
Proof.
  destruct (learn_default_is_first_registered (ByName "Chat") false []
              Samples.agent Samples.world ["EchoBot"; "OpenAIChat"] "EchoBot"
              eq_refl eq_refl) as (_ & E & Hmm).
  split; [exact E|].
  unfold Agent.loaded_modules. rewrite Hmm. vm_compute. discriminate.
Defined.

(** * Outcomes of [learn] *)

(** A successful [learn]: every stage succeeded, and the final state is the
    initial one with the module loaded, a new class and a new instance in
    the store, the instance attached under the task's name and the task
    recorded. *)
Lemma learn_ok_inv task module force kwargs a w s' :
  Agent.learn task module force kwargs (a, w) = (Ok tt, s') ->
  exists m inst mm methods ca oa,
    fst (Agent.resolve_module (Agent.task_name_of task) module (a, w)) = Ok m /\
    ModuleManager.load_module m force (Agent.services_enabled a)
      (Agent.executors_enabled a) kwargs (module_manager w) = (Ok inst, mm) /\
    TaskHub.api (task_hub w) (Agent.task_name_of task) = Ok methods /\
    attach_all mm m methods empty empty = (Ok tt, (ca, oa)) /\
    s' =
      (Agent.with_known_tasks
         (set (Agent.task_name_of task) methods (Agent._known_tasks a))
         (Agent.with_attrs
            (set (Agent.task_name_of task) (VActor (length (objects w)))
               (Agent.attrs a)) a),
       extended (with_module_manager mm w) ca oa).
Proof.
  rewrite learn_unfold.
  destruct (fst (Agent.resolve_module (Agent.task_name_of task) module (a, w)))
    as [m|e]; [|discriminate].
  destruct (ModuleManager.load_module m force (Agent.services_enabled a)
              (Agent.executors_enabled a) kwargs (module_manager w))
    as [[inst|e] mm] eqn:Hload; [|discriminate].
  rewrite bind_actor_unfold. simpl.
  destruct (TaskHub.api (task_hub w) (Agent.task_name_of task))
    as [methods|e] eqn:Hapi; [|discriminate].
  destruct (attach_all mm m methods empty empty) as [[[]|e] [ca oa]] eqn:Hat;
    [|discriminate].
  intros [= <-]. exists m, inst, mm, methods, ca, oa. auto.
Qed.

(** A failed [learn], by the stage that failed. *)
Lemma learn_raised_inv task module force kwargs a w e s' :
  Agent.learn task module force kwargs (a, w) = (Raised e, s') ->
  match fst (Agent.resolve_module (Agent.task_name_of task) module (a, w)) with
  | Raised _ => s' = (a, w)
  | Ok m =>
      match ModuleManager.load_module m force (Agent.services_enabled a)
              (Agent.executors_enabled a) kwargs (module_manager w) with
      | (Raised _, _) => s' = (a, w)
      | (Ok _, mm) =>
          exists ca oa,
            s' =
              (Agent.with_attrs
                 (set (Agent.task_name_of task) (VActor (length (objects w)))
                    (Agent.attrs a)) a,
               extended (with_module_manager mm w) ca oa)
      end
  end.
Proof.
  rewrite learn_unfold.
  destruct (fst (Agent.resolve_module (Agent.task_name_of task) module (a, w)))
    as [m|e0]; [|congruence].
  destruct (ModuleManager.load_module m force (Agent.services_enabled a)
              (Agent.executors_enabled a) kwargs (module_manager w))
    as [[inst|e0] mm] eqn:Hload; [|congruence].
  rewrite bind_actor_unfold. simpl.
  destruct (TaskHub.api (task_hub w) (Agent.task_name_of task))
    as [methods|e0] eqn:Hapi.
  - destruct (attach_all mm m methods empty empty) as [[[]|e0] [ca oa]] eqn:Hat;
      [discriminate|].
    intros [= _ <-]. eauto.
  - intros [= _ <-]. eauto.
Qed.

(** * Failure of [learn]: claims C2 and C4 *)

(** C2, as the code has it, for a task whose name is none of the
    attribute names of the class [Agent]: a [learn] that fails never adds
    the task to the
    known tasks - the known-task mapping, the memorized tasks, the flags
    and the sub-agents are as before. When the failure is in resolving the
    module or in loading it, the agent and the world are exactly as before.
    When it comes later (the task's api or the fetch of a callable), the
    module has been loaded and a new Actor, holding what the loop attached
    before the failure, is already set on the agent under the task's
    name. *)
Theorem learn_failure_state task module force kwargs a w e s' :
  dynamic_name (Agent.task_name_of task) = true ->
  Agent.learn task module force kwargs (a, w) = (Raised e, s') ->
  (Agent._known_tasks (fst s') = Agent._known_tasks a /\
   Agent._memorized_tasks (fst s') = Agent._memorized_tasks a /\
   Agent.services_enabled (fst s') = Agent.services_enabled a /\
   Agent.executors_enabled (fst s') = Agent.executors_enabled a /\
   Agent.subagents (fst s') = Agent.subagents a) /\
  match fst (Agent.resolve_module (Agent.task_name_of task) module (a, w)) with
  | Raised _ => s' = (a, w)
  | Ok m =>
      match ModuleManager.load_module m force (Agent.services_enabled a)
              (Agent.executors_enabled a) kwargs (module_manager w) with
      | (Raised _, _) => s' = (a, w)
      | (Ok _, mm) =>
          get (Agent.task_name_of task) (Agent.attrs (fst s')) =
            Some (VActor (length (objects w))) /\
          module_manager (snd s') = mm /\
          exists ca oa,
            classes (snd s') = classes w ++ [mkActorClass ca] /\
            objects (snd s') =
              objects w ++ [mkActorObj (length (classes w)) oa]
      end
  end.
Proof.
  intros _ H. apply learn_raised_inv in H.
  destruct (fst (Agent.resolve_module (Agent.task_name_of task) module (a, w)))
    as [m|e0]; [|subst; simpl; auto 10].
  destruct (ModuleManager.load_module m force (Agent.services_enabled a)
              (Agent.executors_enabled a) kwargs (module_manager w))
    as [[inst|e0] mm]; [|subst; simpl; auto 10].
  destruct H as (ca & oa & ->). simpl. rewrite get_set_eq.
  repeat split; eauto.
Qed.

Lemma learn_failure_state_witness :
  let s' := snd (Agent.learn (ByName "Chat") (Some "MessageOnly") false []
                   (Samples.agent, Samples.world)) in
  Agent._known_tasks (fst s') = Agent._known_tasks Samples.agent /\
  get "Chat" (Agent.attrs (fst s')) = Some (VActor 0).
Proof.
  intros s'.
  assert (H : Agent.learn (ByName "Chat") (Some "MessageOnly") false []
                (Samples.agent, Samples.world)
              = (Raised (AttributeError "__call__"), s'))
    by (vm_compute; reflexivity).
  destruct (learn_failure_state (ByName "Chat") (Some "MessageOnly") false []
              Samples.agent Samples.world (AttributeError "__call__") s'
              eq_refl H) as [(Hk & _) Hs].
  split; [exact Hk|]. exact (proj1 Hs).
Defined.

(** C2 fails as stated. [MessageOnly] has no [__call__]; learning [Chat]
    through it fails at the second fetch, and the failed call leaves on the
    agent, under the name [Chat], an Actor that has [message] and no
    [__call__], where the agent had no attribute before. *)
Lemma learn_failure_state_counterexample :
  let r := Agent.learn (ByName "Chat") (Some "MessageOnly") false []
             (Samples.agent, Samples.world) in
  fst r = Raised (AttributeError "__call__") /\
  get "Chat" (Agent.attrs Samples.agent) = None /\
  get "Chat" (Agent.attrs (fst (snd r))) = Some (VActor 0) /\
  actor_getattr (snd (snd r)) 0 "message" = Some (mkCallable "message" 0) /\
  actor_getattr (snd (snd r)) 0 "__call__" = None /\
  fst (snd r) <> Samples.agent.
Proof.
  vm_compute. repeat split; discriminate.
Qed.

(** C4, as the Module Registry of the specification has it: when the
    module requires the services permission, the agent's services flag is
    off and no instance of the module is cached yet, [load_module] fails
    with ServicePermissionRequired, [learn] fails with that same error and
    leaves the agent and the world as they were: nothing is cached for the
    module, and the task is among the known tasks afterward only if it was
    before. *)
Theorem learn_service_permission_required task M force kwargs a w d :
  get M (ModuleManager.declared (module_manager w)) = Some d ->
  ModuleManager.is_service d = true ->
  Agent.services_enabled a = false ->
  get M (Agent.loaded_modules w) = None ->
  ModuleManager.load_module M force (Agent.services_enabled a)
    (Agent.executors_enabled a) kwargs (module_manager w) =
    (Raised ServicePermissionRequired, module_manager w) /\
  Agent.learn task (Some M) force kwargs (a, w) =
    (Raised ServicePermissionRequired, (a, w)) /\
  get M (Agent.loaded_modules
           (snd (snd (Agent.learn task (Some M) force kwargs (a, w))))) = None /\
  (In (Agent.task_name_of task)
      (Agent.known_tasks
         (fst (snd (Agent.learn task (Some M) force kwargs (a, w))))) <->
   In (Agent.task_name_of task) (Agent.known_tasks a)).
Proof.
  intros Hd Hs Ha Hc.
  assert (Hload :
    ModuleManager.load_module M force (Agent.services_enabled a)
      (Agent.executors_enabled a) kwargs (module_manager w) =
    (Raised ServicePermissionRequired, module_manager w)).
  { unfold ModuleManager.load_module. unfold Agent.loaded_modules in Hc.
    rewrite Hc, Hd, Hs, Ha. reflexivity. }
  assert (Hlearn : Agent.learn task (Some M) force kwargs (a, w) =
                   (Raised ServicePermissionRequired, (a, w))).
  { rewrite learn_unfold. simpl. rewrite Hload. reflexivity. }
  rewrite Hlearn. simpl. tauto.
Qed.

Lemma learn_service_permission_required_witness :
  Agent.learn (ByName "Chat") (Some "OpenAIChat") false []
    (Samples.agent, Samples.world) =
    (Raised ServicePermissionRequired, (Samples.agent, Samples.world)) /\
  get "OpenAIChat"
    (Agent.loaded_modules
       (snd (snd (Agent.learn (ByName "Chat") (Some "OpenAIChat") false []
                    (Samples.agent, Samples.world))))) = None.
Proof.
  destruct (learn_service_permission_required (ByName "Chat") "OpenAIChat"
              false [] Samples.agent Samples.world Samples.OpenAIChat
              eq_refl eq_refl eq_refl eq_refl) as (_ & H1 & H2 & _).
  split; [exact H1 | exact H2].
Defined.

(** C4 fails as stated. The Module Registry is shared by all agents and
    returns a cached instance without looking at permissions. Once an
    agent with services enabled has loaded [OpenAIChat], an agent with
    services disabled learns [Chat] through it successfully. *)
Lemma learn_service_permission_counterexample :
  let w1 := snd (snd (Agent.learn (ByName "Chat") (Some "OpenAIChat") false []
                        (Samples.service_agent, Samples.world))) in
  let r := Agent.learn (ByName "Chat") (Some "OpenAIChat") false []
             (Samples.agent, w1) in
  get "OpenAIChat" (ModuleManager.declared (module_manager w1)) =
    Some Samples.OpenAIChat /\
  ModuleManager.is_service Samples.OpenAIChat = true /\
  Agent.services_enabled Samples.agent = false /\
  fst r = Ok tt /\
  fst r <> Raised ServicePermissionRequired /\
  In "Chat" (Agent.known_tasks (fst (snd r))) /\
  get "OpenAIChat" (Agent.loaded_modules (snd (snd r))) <> None.
Proof.
  vm_compute. repeat split; try discriminate. left; reflexivity.
Qed.

(** * Success of [learn]: claims C5 and C6 *)

(** C5: after a successful [learn] of task [T], [agent.api(T)] is the
    action list the Task Registry gives for [T], element for element, and
    [T] occurs exactly once in [known_tasks]. *)
Theorem learn_api_and_known_once task module force kwargs a w a' w' :
  wf (Agent._known_tasks a) ->
  Agent.learn task module force kwargs (a, w) = (Ok tt, (a', w')) ->
  exists l,
    TaskHub.api (task_hub w') (Agent.task_name_of task) = Ok l /\
    Agent.api a' w' (Agent.task_name_of task) = Ok (Some l) /\
    count_occ string_dec (Agent.known_tasks a') (Agent.task_name_of task) = 1.
Proof.
  intros Hwf H. apply learn_ok_inv in H.
  destruct H as (m & inst & mm & methods & ca & oa & _ & _ & Hapi & _ & E).
  injection E as -> ->. exists methods. simpl.
  split; [exact Hapi|]. split.
  - assert (Hm : mem (Agent.task_name_of task) (TaskHub.tasks (task_hub w))
                 = true).
    { unfold TaskHub.api in Hapi. unfold mem.
      destruct (get (Agent.task_name_of task) (TaskHub.tasks (task_hub w)));
        [reflexivity | discriminate]. }
    unfold Agent.api. simpl. now rewrite Hm, Hapi.
  - unfold Agent.known_tasks. simpl. now apply count_occ_keys_set.
Qed.

Lemma learn_api_and_known_once_witness :
  let s' := snd (Agent.learn (ByName "Chat") (Some "EchoBot") false []
                   (Samples.service_agent, Samples.world)) in
  Agent.api (fst s') (snd s') "Chat" = Ok (Some ["message"; "__call__"]) /\
  count_occ string_dec (Agent.known_tasks (fst s')) "Chat" = 1.
Proof.
  intros s'.
  assert (H : Agent.learn (ByName "Chat") (Some "EchoBot") false []
                (Samples.service_agent, Samples.world) = (Ok tt, (fst s', snd s')))
    by (vm_compute; reflexivity).
  destruct (learn_api_and_known_once (ByName "Chat") (Some "EchoBot") false []
              Samples.service_agent Samples.world (fst s') (snd s')
              (List.NoDup_nil string) H)
    as (l & Hl & Hapi & Hc).
  assert (l = ["message"; "__call__"]) as -> by (vm_compute in Hl; congruence).
  split; [exact Hapi | exact Hc].
Defined.

Lemma heap_ok_lookup w oid o :
  heap_ok w = true -> objects w !! oid = Some o ->
  obj_class o < length (classes w).
Proof.
  unfold heap_ok. rewrite forallb_forall. intros H Hl.
  apply Nat.ltb_lt, H, list_elem_of_In, list_elem_of_lookup. eauto.
Qed.

Lemma heap_ok_extended w ca oa :
  heap_ok w = true -> heap_ok (extended w ca oa) = true.
Proof.
  unfold heap_ok. simpl. rewrite forallb_app, !forallb_forall. intros H.
  apply andb_true_iff. split.
  - apply forallb_forall. intros o Ho. specialize (H o Ho).
    apply Nat.ltb_lt in H. apply Nat.ltb_lt. rewrite length_app. simpl. lia.
  - simpl. rewrite andb_true_r. apply Nat.ltb_lt. rewrite length_app. simpl. lia.
Qed.

(** The Actors that were in the store before a binding show the same
    attributes after it, through the instance and through the type. *)
Lemma extended_other_actors w ca oa oid attr :
  heap_ok w = true -> oid < length (objects w) ->
  actor_getattr (extended w ca oa) oid attr = actor_getattr w oid attr /\
  actor_type_getattr (extended w ca oa) oid attr = actor_type_getattr w oid attr.
Proof.
  intros Hok Hlt. unfold actor_getattr, actor_type_getattr. simpl.
  rewrite lookup_app_l by assumption.
  destruct (objects w !! oid) as [o|] eqn:Ho; [|auto].
  pose proof (heap_ok_lookup _ _ _ Hok Ho) as Hc.
  rewrite lookup_app_l by assumption. auto.
Qed.

(** The attachment rule of lines 129-143, as it is written: [learn]
    creates one new class and one new
    instance of it and sets the instance on the agent under the task's
    name. For every action of the task's api, the callable fetched from the
    module is set on the class when and only when the callable's own
    [__name__] contains [__], and on the instance otherwise; nothing else is
    set. The Actors already in the store, whichever task or agent they are
    bound for, show the same attributes as before, through the instance and
    through the type. *)
Theorem learn_attachment_levels task module force kwargs a w a' w' :
  heap_ok w = true ->
  Agent.learn task module force kwargs (a, w) = (Ok tt, (a', w')) ->
  exists M methods cls obj,
    fst (Agent.resolve_module (Agent.task_name_of task) module (a, w)) = Ok M /\
    TaskHub.api (task_hub w) (Agent.task_name_of task) = Ok methods /\
    classes w' = classes w ++ [cls] /\
    objects w' = objects w ++ [obj] /\
    obj_class obj = length (classes w) /\
    get (Agent.task_name_of task) (Agent.attrs a') =
      Some (VActor (length (objects w))) /\
    (forall m, In m methods ->
       exists c,
         fst (ModuleManager.get_module_attr M m (module_manager w')) = Ok c /\
         if contains "__" (c_name c)
         then get m (cls_attrs cls) = Some c /\ get m (obj_attrs obj) = None
         else get m (obj_attrs obj) = Some c /\ get m (cls_attrs cls) = None) /\
    (forall m, ~ In m methods ->
       get m (cls_attrs cls) = None /\ get m (obj_attrs obj) = None) /\
    (forall oid attr, oid < length (objects w) ->
       actor_getattr w' oid attr = actor_getattr w oid attr /\
       actor_type_getattr w' oid attr = actor_type_getattr w oid attr) /\
    heap_ok w' = true.
Proof.
  intros Hok H. apply learn_ok_inv in H.
  destruct H as (M & inst & mm & methods & ca & oa & Hres & _ & Hapi & Hat & E).
  injection E as -> ->.
  exists M, methods, (mkActorClass ca), (mkActorObj (length (classes w)) oa).
  simpl. rewrite get_set_eq.
  repeat (split; [solve [auto] |]).
  assert (Hca : ca = fst (snd (attach_all mm M methods empty empty)))
    by now rewrite Hat.
  assert (Hoa : oa = snd (snd (attach_all mm M methods empty empty)))
    by now rewrite Hat.
  assert (Hfst : fst (attach_all mm M methods empty empty) = Ok tt)
    by now rewrite Hat.
  split; [|split; [|split]].
  - intros m Hin.
    destruct (attach_all_ok mm M methods empty empty Hfst m Hin)
      as (c & Hc & Hlev).
    exists c. split; [exact Hc|]. rewrite <- Hca, <- Hoa in Hlev. exact Hlev.
  - intros m Hin.
    destruct (attach_all_frame mm M methods empty empty m Hin) as [H1 H2].
    rewrite <- Hca in H1. rewrite <- Hoa in H2. auto.
  - intros oid attr Hlt.
    apply (extended_other_actors (with_module_manager mm w) ca oa oid attr);
      assumption.
  - apply (heap_ok_extended (with_module_manager mm w)). exact Hok.
Qed.

Lemma learn_attachment_levels_witness :
  let s' := snd (Agent.learn (ByName "Chat") (Some "EchoBot") false []
                   (Samples.agent, Samples.world)) in
  actor_type_getattr (snd s') 0 "__call__" = Some (mkCallable "__call__" 0) /\
  actor_type_getattr (snd s') 0 "message" = None /\
  actor_getattr (snd s') 0 "message" = Some (mkCallable "message" 0).
Proof.
  intros s'.
  assert (H : Agent.learn (ByName "Chat") (Some "EchoBot") false []
                (Samples.agent, Samples.world) = (Ok tt, (fst s', snd s')))
    by (vm_compute; reflexivity).
  destruct (learn_attachment_levels (ByName "Chat") (Some "EchoBot") false []
              Samples.agent Samples.world (fst s') (snd s') eq_refl H)
    as (M & methods & cls & obj & HM & Hm & Hcls & Hobj & Hoc & _ & Hlev & _).
  injection HM as <-. injection Hm as <-.
  destruct (Hlev "__call__" (or_intror (or_introl eq_refl)))
    as (c1 & Hc1 & H1).
  destruct (Hlev "message" (or_introl eq_refl)) as (c2 & Hc2 & H2).
  vm_compute in Hc1. injection Hc1 as <-.
  vm_compute in Hc2. injection Hc2 as <-.
  simpl in H1, H2. destruct H1 as [H1a H1b]. destruct H2 as [H2a H2b].
  unfold actor_type_getattr, actor_getattr.
  rewrite Hobj, Hcls. simpl. rewrite Hoc. simpl.
  rewrite H1a, H2a, H2b. auto.
Defined.

(** C6: the code at the input where it departs from the claim. [AliasBot]
    binds the attribute [__call__] to the function named [message]. The
    action name [__call__] follows the double-underscore convention, and the
    comment of lines 129-130 says the class of the Actor is there for such
    methods; yet [learn] sets the callable on the instance and not on the
    class, because the test of line 138 reads the callable's [__name__]
    instead of the action name: the lookup of [__call__] through the type,
    which the call syntax uses, finds nothing. *)
Lemma learn_attachment_levels_counterexample :
  let r := Agent.learn (ByName "Chat") (Some "AliasBot") false []
             (Samples.agent, Samples.world) in
  fst r = Ok tt /\
  TaskHub.api Samples.hub "Chat" = Ok ["message"; "__call__"] /\
  contains "__" "__call__" = true /\
  get "Chat" (Agent.attrs (fst (snd r))) = Some (VActor 0) /\
  actor_type_getattr (snd (snd r)) 0 "__call__" = None /\
  objects (snd (snd r)) !! 0 =
    Some (mkActorObj 0 [("message", mkCallable "message" 0);
                        ("__call__", mkCallable "message" 0)]).
Proof.
  vm_compute. repeat split.
Qed.

(** * [memorize]: claims C7 and C9 *)



Lemma memorize_unfold p actions stm a w :
  stms w !! p = Some stm ->
  Agent.memorize p actions (a, w) =
  (Ok tt,
   (Agent.with_memorized_tasks
      (set (stm_name stm)
         match actions with
         | NoActions => keys (stm_api stm)
         | ActionsStr str => chars str
         | ActionsList l => l
         end
         (Agent._memorized_tasks a))
      (Agent.with_attrs (set (stm_name stm) (VStm p) (Agent.attrs a)) a),
    w)).
Proof. intros H. unfold Agent.memorize. simpl. rewrite H. reflexivity. Qed.

(** C7, for a short-term module whose name is none of the attribute
    names of the class [Agent] (for those, [setattr] raises or replaces a
    part of the agent): [memorize(stm)] without actions succeeds whatever
    the registries
    hold and whatever the agent's permission flags are, and leaves the
    world untouched: no registry is read or changed and the short-term
    module is not copied. The agent's attribute [stm.name] holds the address
    of [stm] itself, so that it denotes whatever that object becomes, and
    [memorized_tasks] has [stm.name] with the keys of [stm.api()] in their
    order. *)
Theorem memorize_attaches_by_reference p stm a w :
  stms w !! p = Some stm ->
  dynamic_name (stm_name stm) = true ->
  exists a',
    Agent.memorize p NoActions (a, w) = (Ok tt, (a', w)) /\
    get (stm_name stm) (Agent.attrs a') = Some (VStm p) /\
    getattr_stm a' w (stm_name stm) = Some stm /\
    (forall w2, getattr_stm a' w2 (stm_name stm) = stms w2 !! p) /\
    In (stm_name stm) (Agent.memorized_tasks a') /\
    get (stm_name stm) (Agent._memorized_tasks a') = Some (keys (stm_api stm)) /\
    Agent.services_enabled a' = Agent.services_enabled a /\
    Agent.executors_enabled a' = Agent.executors_enabled a /\
    (forall hub mm services executors,
       fst (Agent.memorize p NoActions
              (Agent.with_allow_services services
                 (Agent.with_allow_executors executors a),
               mkWorld hub mm (classes w) (objects w) (stms w))) = Ok tt).
Proof.
  intros H _. eexists. split; [apply memorize_unfold; exact H|].
  unfold getattr_stm, Agent.memorized_tasks. simpl. rewrite !get_set_eq.
  repeat split; auto.
  - apply In_keys_set. auto.
  - intros hub mm services executors.
    rewrite (memorize_unfold p NoActions stm) by exact H. reflexivity.
Qed.

Lemma memorize_attaches_by_reference_witness :
  let s' := snd (Agent.memorize 0 NoActions (Samples.agent, Samples.world)) in
  snd s' = Samples.world /\
  get "Scratch" (Agent.attrs (fst s')) = Some (VStm 0) /\
  get "Scratch" (Agent._memorized_tasks (fst s')) = Some ["foo"; "bar"].
Proof.
  intros s'.
  destruct (memorize_attaches_by_reference 0 Samples.scratch Samples.agent
              Samples.world eq_refl eq_refl) as (a' & E & Hattr & _ & _ & _ & Hm & _).
  assert (Hs : s' = (a', Samples.world)) by (unfold s'; now rewrite E).
  rewrite Hs. simpl. auto.
Defined.



(** * Sub-agents: claims C8 and C10 *)

(** C8: [spawn_subagent(name)] fails with the collision error (ValueError)
    and changes nothing when [name] already denotes a sub-agent; otherwise
    it succeeds and puts under [name] a new agent whose flags are the ones
    given or, for those not given, the parent's flags at the call - flags
    that later changes of the parent's flags do not reach. After
    [remove_subagent(name)], [spawn_subagent(name)] succeeds. Both
    operations keep the sub-agent names unique. *)
Theorem subagent_names_unique name es ee a :
  (mem name (Agent.subagents a) = true ->
   Agent.spawn_subagent name es ee a =
     (Raised (ValueError ("Sub agent " ++ name ++ " already exists.")), a)) /\
  (mem name (Agent.subagents a) = false ->
   exists a',
     Agent.spawn_subagent name es ee a = (Ok tt, a') /\
     get name (Agent.subagents a') =
       Some (Agent.init name (ifnone es (Agent.services_enabled a))
               (ifnone ee (Agent.executors_enabled a))) /\
     (forall b,
        get name (Agent.subagents (Agent.with_allow_services b a')) =
          get name (Agent.subagents a') /\
        get name (Agent.subagents (Agent.with_allow_executors b a')) =
          get name (Agent.subagents a'))) /\
  (forall child,
     fst (Agent.spawn_subagent name None None a) = Ok tt ->
     get name (Agent.subagents (snd (Agent.spawn_subagent name None None a)))
       = Some child ->
     Agent.services_enabled child = Agent.services_enabled a /\
     Agent.executors_enabled child = Agent.executors_enabled a) /\
  (forall a1,
     Agent.remove_subagent name a = (Ok tt, a1) ->
     fst (Agent.spawn_subagent name es ee a1) = Ok tt) /\
  (wf (Agent.subagents a) ->
   wf (Agent.subagents (snd (Agent.spawn_subagent name es ee a))) /\
   wf (Agent.subagents (snd (Agent.remove_subagent name a)))).
Proof.
  split; [|split; [|split; [|split]]].
  - intros H. unfold Agent.spawn_subagent. now rewrite H.
  - intros H. unfold Agent.spawn_subagent. rewrite H. eexists.
    split; [reflexivity|]. simpl. rewrite get_set_eq. auto.
  - intros child. unfold Agent.spawn_subagent.
    destruct (mem name (Agent.subagents a)); [discriminate|].
    simpl. rewrite get_set_eq. intros _ [= <-]. auto.
  - intros a1. unfold Agent.remove_subagent, del.
    destruct (mem name (Agent.subagents a)); [|discriminate].
    intros [= <-]. unfold Agent.spawn_subagent. simpl.
    now rewrite mem_remove_eq.
  - intros Hwf. split.
    + unfold Agent.spawn_subagent.
      destruct (mem name (Agent.subagents a)); simpl; auto using wf_set.
    + unfold Agent.remove_subagent, del.
      destruct (mem name (Agent.subagents a)); simpl; auto using wf_remove.
Qed.

Lemma subagent_names_unique_witness :
  let a1 := snd (Agent.spawn_subagent "x" None None Samples.service_agent) in
  fst (Agent.spawn_subagent "x" None None a1) =
    Raised (ValueError "Sub agent x already exists.") /\
  fst (Agent.spawn_subagent "x" None None
         (snd (Agent.remove_subagent "x" a1))) = Ok tt /\
  get "x" (Agent.subagents a1) = Some (Agent.init "x" true false) /\
  Agent.services_enabled (Agent.init "x" true false) =
    Agent.services_enabled Samples.service_agent /\
  wf (Agent.subagents a1).
Proof.
  intros a1.
  destruct (subagent_names_unique "x" None None a1) as (Hdup & _ & _ & Hre & _).
  destruct (subagent_names_unique "x" None None Samples.service_agent)
    as (_ & Hnew & Hchild & _ & Hwf).
  destruct (Hnew eq_refl) as (a' & E & Hget & _).
  assert (Ha1 : a1 = a') by (unfold a1; now rewrite E).
  split; [|split; [|split; [|split]]].
  - rewrite (Hdup eq_refl). reflexivity.
  - apply Hre. reflexivity.
  - rewrite Ha1. exact Hget.
  - apply (Hchild (Agent.init "x" true false) eq_refl eq_refl).
  - apply (Hwf (List.NoDup_nil string)).
Defined.

(** C10: [remove_subagent(name)] for a name that denotes no sub-agent
    raises KeyError and leaves the agent, its sub-agent mapping included,
    as it was. The operation is not idempotent: after a removal that
    succeeded, the same call raises KeyError. *)
Theorem remove_absent_subagent_raises name a :
  ~ In name (keys (Agent.subagents a)) ->
  Agent.remove_subagent name a = (Raised (KeyError name), a) /\
  Agent.subagents (snd (Agent.remove_subagent name a)) = Agent.subagents a /\
  (forall b b1,
     Agent.remove_subagent name b = (Ok tt, b1) ->
     Agent.remove_subagent name b1 = (Raised (KeyError name), b1)).
Proof.
  intros H.
  assert (E : Agent.remove_subagent name a = (Raised (KeyError name), a)).
  { unfold Agent.remove_subagent. apply del_None in H. now rewrite H. }
  rewrite E. repeat split; auto.
  intros b b1. unfold Agent.remove_subagent at 1, del.
  destruct (mem name (Agent.subagents b)); [|discriminate].
  intros [= <-]. unfold Agent.remove_subagent, del. simpl.
  now rewrite mem_remove_eq.
Qed.

Lemma remove_absent_subagent_raises_witness :
  Agent.remove_subagent "y"
    (snd (Agent.spawn_subagent "x" None None Samples.agent)) =
    (Raised (KeyError "y"),
     snd (Agent.spawn_subagent "x" None None Samples.agent)).
Proof.
  refine (proj1 (remove_absent_subagent_raises "y"
                   (snd (Agent.spawn_subagent "x" None None Samples.agent)) _)).
  simpl. intros [H|[]]. discriminate H.
Defined.

(** * Invariants of the model *)

(** A new agent has well-formed dictionaries, and every method keeps them
    so, whatever its outcome. *)
Lemma init_wf name es ee : agent_wf (Agent.init name es ee).
Proof. repeat split; apply wf_empty. Qed.

Lemma learn_wf task module force kwargs a w :
  agent_wf a ->
  agent_wf (fst (snd (Agent.learn task module force kwargs (a, w)))).
Proof.
  intros (Hk & Hm & Hs & Ha).
  destruct (Agent.learn task module force kwargs (a, w)) as [[[]|e] s'] eqn:E.
  - apply learn_ok_inv in E.
    destruct E as (m & inst & mm & methods & ca & oa & _ & _ & _ & _ & ->).
    repeat split; simpl; auto using wf_set.
  - apply learn_raised_inv in E.
    destruct (fst (Agent.resolve_module (Agent.task_name_of task) module (a, w)))
      as [m|e0]; [|subst; repeat split; assumption].
    destruct (ModuleManager.load_module m force (Agent.services_enabled a)
                (Agent.executors_enabled a) kwargs (module_manager w))
      as [[inst|e1] mm]; [|subst; repeat split; assumption].
    destruct E as (ca & oa & ->). repeat split; simpl; auto using wf_set.
Qed.

Lemma memorize_wf p actions a w :
  agent_wf a -> agent_wf (fst (snd (Agent.memorize p actions (a, w)))).
Proof.
  intros (Hk & Hm & Hs & Ha). unfold Agent.memorize. simpl.
  destruct (stms w !! p); simpl; repeat split; simpl; auto using wf_set.
Qed.

Lemma spawn_subagent_wf name es ee a :
  agent_wf a -> agent_wf (snd (Agent.spawn_subagent name es ee a)).
Proof.
  intros (Hk & Hm & Hs & Ha). unfold Agent.spawn_subagent.
  destruct (mem name (Agent.subagents a)); repeat split; simpl;
    auto using wf_set.
Qed.

Lemma remove_subagent_wf name a :
  agent_wf a -> agent_wf (snd (Agent.remove_subagent name a)).
Proof.
  intros (Hk & Hm & Hs & Ha). unfold Agent.remove_subagent, del.
  destruct (mem name (Agent.subagents a)); repeat split; simpl;
    auto using wf_remove.
Qed.

(** [learn] keeps every instance of the store attached to a class of the
    store, whatever its outcome. *)
Lemma learn_heap_ok task module force kwargs a w :
  heap_ok w = true ->
  heap_ok (snd (snd (Agent.learn task module force kwargs (a, w)))) = true.
Proof.
  intros Hok.
  destruct (Agent.learn task module force kwargs (a, w)) as [[[]|e] s'] eqn:E.
  - apply learn_ok_inv in E.
    destruct E as (m & inst & mm & methods & ca & oa & _ & _ & _ & _ & ->).
    apply (heap_ok_extended (with_module_manager mm w)). exact Hok.
  - apply learn_raised_inv in E.
    destruct (fst (Agent.resolve_module (Agent.task_name_of task) module (a, w)))
      as [m|e0]; [|subst; assumption].
    destruct (ModuleManager.load_module m force (Agent.services_enabled a)
                (Agent.executors_enabled a) kwargs (module_manager w))
      as [[inst|e1] mm]; [|subst; assumption].
    destruct E as (ca & oa & ->).
    apply (heap_ok_extended (with_module_manager mm w)). exact Hok.
Qed.

(** The branches of [type_of], [setattr_class] and [setattr_object] that
    stand for values outside the model are never taken by [learn]. *)
Lemma attach_all_no_type_error mm module methods : forall ca oa,
  fst (attach_all mm module methods ca oa) <> Raised TypeError.
Proof.
  induction methods as [|m r IH]; intros ca oa; simpl; [discriminate|].
  unfold ModuleManager.get_module_attr.
  destruct (get module (ModuleManager.modules mm)) as [inst|]; simpl;
    [|discriminate].
  destruct (get m (ModuleManager.inst_methods inst)); simpl; [|discriminate].
  destruct (contains "__" _); apply IH.
Qed.

Lemma learn_no_type_error task module force kwargs a w :
  fst (Agent.learn task module force kwargs (a, w)) <> Raised TypeError.
Proof.
  rewrite learn_unfold.
  destruct (fst (Agent.resolve_module (Agent.task_name_of task) module (a, w)))
    as [m|e] eqn:Hres.
  - destruct (ModuleManager.load_module m force (Agent.services_enabled a)
                (Agent.executors_enabled a) kwargs (module_manager w))
      as [[inst|e] mm] eqn:Hload.
    + rewrite bind_actor_unfold. simpl.
      unfold TaskHub.api.
      destruct (get (Agent.task_name_of task) (TaskHub.tasks (task_hub w)));
        [|simpl; discriminate].
      pose proof (attach_all_no_type_error mm m (TaskHub.actions t) empty empty).
      destruct (attach_all mm m (TaskHub.actions t) empty empty)
        as [[[]|e] [ca oa]]; simpl in *; [discriminate | assumption].
    + simpl. unfold ModuleManager.load_module in Hload.
      repeat match type of Hload with
      | context [match ?x with _ => _ end] => destruct x eqn:?
      | context [if ?x then _ else _] => destruct x eqn:?
      end; congruence.
  - simpl. unfold Agent.resolve_module, bind, gets, ret, raise in Hres.
    destruct module; simpl in Hres; [discriminate|].
    destruct (TaskHub.registered_modules (task_hub w) (Agent.task_name_of task))
      as [l|]; simpl in Hres; [|congruence].
    destruct (l !! 0); simpl in Hres; congruence.
Qed.

(** * Further properties of the agent *)

Lemma set_set_eq {V : Type} k (v v' : V) d : set k v (set k v' d) = set k v d.
Proof.
  induction d as [|[k0 v0] r IH]; simpl.
  - now rewrite String.eqb_refl.
  - destruct (String.eqb k k0) eqn:E; simpl.
    + now rewrite String.eqb_refl.
    + now rewrite E, IH.
Qed.

Lemma remove_set_fresh {V : Type} k (v : V) d :
  mem k d = false -> remove k (set k v d) = d.
Proof.
  unfold mem, remove. induction d as [|[k0 v0] r IH]; simpl.
  - now rewrite String.eqb_refl.
  - destruct (String.eqb k k0) eqn:E; [discriminate|].
    intros H. simpl. rewrite E. simpl. now rewrite IH.
Qed.

Lemma count_occ_keys {V : Type} (d : dict V) k :
  wf d -> count_occ string_dec (keys d) k = if mem k d then 1 else 0.
Proof.
  intros Hwf. unfold wf in Hwf.
  rewrite (NoDup_count_occ string_dec) in Hwf. specialize (Hwf k).
  destruct (mem k d) eqn:E.
  - apply mem_true_iff in E. apply (count_occ_In string_dec) in E. lia.
  - apply mem_false_iff in E. now apply count_occ_not_In.
Qed.

(** X1: a successful [learn] records for the task the action list of the
    Task Registry; a task that was already known keeps its place in
    [known_tasks], a new one goes last; the entries of other tasks are not
    touched. *)
Theorem learn_records_task task module force kwargs a w a' w' :
  Agent.learn task module force kwargs (a, w) = (Ok tt, (a', w')) ->
  exists l,
    TaskHub.api (task_hub w) (Agent.task_name_of task) = Ok l /\
    get (Agent.task_name_of task) (Agent._known_tasks a') = Some l /\
    Agent.known_tasks a' =
      (if mem (Agent.task_name_of task) (Agent._known_tasks a)
       then Agent.known_tasks a
       else Agent.known_tasks a ++ [Agent.task_name_of task]) /\
    (forall other, other <> Agent.task_name_of task ->
       get other (Agent._known_tasks a') = get other (Agent._known_tasks a)).
Proof.
  intros H. apply learn_ok_inv in H.
  destruct H as (m & inst & mm & methods & ca & oa & _ & _ & Hapi & _ & E).
  injection E as -> ->. exists methods. simpl.
  split; [exact Hapi|]. split; [apply get_set_eq|]. split.
  - unfold Agent.known_tasks. simpl. apply keys_set.
  - intros other Hne. apply get_set_ne. congruence.
Qed.

Lemma learn_records_task_witness :
  let s1 := snd (Agent.learn (ByName "Chat") None false []
                   (Samples.agent, Samples.world)) in
  let s2 := snd (Agent.learn (ByName "ZeroShotTextClassification") None false []
                   s1) in
  let s3 := snd (Agent.learn (ByName "Chat") (Some "AliasBot") false [] s2) in
  Agent.known_tasks (fst s3) = ["Chat"; "ZeroShotTextClassification"] /\
  get "Chat" (Agent._known_tasks (fst s3)) = Some ["message"; "__call__"].
Proof.
  intros s1 s2 s3.
  assert (H : Agent.learn (ByName "Chat") (Some "AliasBot") false []
                (fst s2, snd s2) = (Ok tt, (fst s3, snd s3)))
    by (vm_compute; reflexivity).
  destruct (learn_records_task _ _ _ _ _ _ _ _ H) as (l & Hl & Hget & Hk & _).
  assert (l = ["message"; "__call__"]) as -> by (vm_compute in Hl; congruence).
  split; [|exact Hget]. rewrite Hk. vm_compute. reflexivity.
Defined.

(** X2: for a task whose name is none of the attribute names of the class
    [Agent]: whatever its outcome, [learn] leaves the agent's name, memorized
    tasks, permission flags and sub-agents, the attributes under other
    names, the Task Registry and the short-term modules as they were, and
    only adds to the store of classes and instances: what was there stays
    at its address, unchanged. *)
Theorem learn_frame task module force kwargs a w :
  dynamic_name (Agent.task_name_of task) = true ->
  let s' := snd (Agent.learn task module force kwargs (a, w)) in
  Agent.name (fst s') = Agent.name a /\
  Agent._memorized_tasks (fst s') = Agent._memorized_tasks a /\
  Agent.services_enabled (fst s') = Agent.services_enabled a /\
  Agent.executors_enabled (fst s') = Agent.executors_enabled a /\
  Agent.subagents (fst s') = Agent.subagents a /\
  (forall n, n <> Agent.task_name_of task ->
     get n (Agent.attrs (fst s')) = get n (Agent.attrs a)) /\
  task_hub (snd s') = task_hub w /\
  stms (snd s') = stms w /\
  exists cs os,
    classes (snd s') = classes w ++ cs /\ objects (snd s') = objects w ++ os.
Proof.
  intros _ s'. subst s'.
  destruct (Agent.learn task module force kwargs (a, w)) as [[[]|e] s'] eqn:E.
  - apply learn_ok_inv in E.
    destruct E as (m & inst & mm & methods & ca & oa & _ & _ & _ & _ & ->).
    simpl. repeat split; auto.
    + intros n Hn. apply get_set_ne. congruence.
    + eauto.
  - apply learn_raised_inv in E.
    assert (Hsame : s' = (a, w) ->
      Agent.name (fst s') = Agent.name a /\
      Agent._memorized_tasks (fst s') = Agent._memorized_tasks a /\
      Agent.services_enabled (fst s') = Agent.services_enabled a /\
      Agent.executors_enabled (fst s') = Agent.executors_enabled a /\
      Agent.subagents (fst s') = Agent.subagents a /\
      (forall n, n <> Agent.task_name_of task ->
         get n (Agent.attrs (fst s')) = get n (Agent.attrs a)) /\
      task_hub (snd s') = task_hub w /\
      stms (snd s') = stms w /\
      exists cs os,
        classes (snd s') = classes w ++ cs /\ objects (snd s') = objects w ++ os).
    { intros ->. simpl. repeat split; auto.
      exists [], []. now rewrite !app_nil_r. }
    destruct (fst (Agent.resolve_module (Agent.task_name_of task) module (a, w)))
      as [m|e0]; [|auto].
    destruct (ModuleManager.load_module m force (Agent.services_enabled a)
                (Agent.executors_enabled a) kwargs (module_manager w))
      as [[inst|e1] mm]; [|auto].
    destruct E as (ca & oa & ->). simpl. repeat split; auto.
    + intros n Hn. apply get_set_ne. congruence.
    + eauto.
Qed.

(** X3: after a successful [learn], every action of the task's api is
    reached by attribute access on the Actor bound under the task's name,
    and what it denotes is the callable the Module Registry gives for the
    module used. *)
Theorem learn_actions_reachable task module force kwargs a w a' w' :
  Agent.learn task module force kwargs (a, w) = (Ok tt, (a', w')) ->
  exists M methods oid,
    fst (Agent.resolve_module (Agent.task_name_of task) module (a, w)) = Ok M /\
    TaskHub.api (task_hub w') (Agent.task_name_of task) = Ok methods /\
    get (Agent.task_name_of task) (Agent.attrs a') = Some (VActor oid) /\
    forall m, In m methods ->
      exists c,
        fst (ModuleManager.get_module_attr M m (module_manager w')) = Ok c /\
        actor_getattr w' oid m = Some c.
Proof.
  intros H. apply learn_ok_inv in H.
  destruct H as (M & inst & mm & methods & ca & oa & Hres & _ & Hapi & Hat & E).
  injection E as -> ->. exists M, methods, (length (objects w)). simpl.
  rewrite get_set_eq. repeat split; auto.
  intros m Hin.
  assert (Hfst : fst (attach_all mm M methods empty empty) = Ok tt)
    by now rewrite Hat.
  destruct (attach_all_ok mm M methods empty empty Hfst m Hin) as (c & Hc & Hlev).
  rewrite Hat in Hlev. simpl in Hlev.
  exists c. split; [exact Hc|].
  unfold actor_getattr. simpl.
  rewrite list_lookup_middle by reflexivity. simpl.
  destruct (contains "__" (c_name c)).
  - destruct Hlev as [H1 H2]. rewrite H2. simpl.
    rewrite list_lookup_middle by reflexivity. exact H1.
  - destruct Hlev as [H1 _]. now rewrite H1.
Qed.

Lemma learn_actions_reachable_witness :
  let s' := snd (Agent.learn (ByName "ZeroShotTextClassification") None false []
                   (Samples.agent, Samples.world)) in
  actor_getattr (snd s') 0 "classify" = Some (mkCallable "classify" 0) /\
  actor_getattr (snd s') 0 "__call__" = Some (mkCallable "__call__" 0).
Proof.
  intros s'.
  assert (H : Agent.learn (ByName "ZeroShotTextClassification") None false []
                (Samples.agent, Samples.world) = (Ok tt, (fst s', snd s')))
    by (vm_compute; reflexivity).
  destruct (learn_actions_reachable _ _ _ _ _ _ _ _ H)
    as (M & methods & oid & HM & Hm & Hoid & Hall).
  injection HM as <-. injection Hm as <-. injection Hoid as <-.
  destruct (Hall "classify" (or_introl eq_refl)) as (c1 & Hc1 & H1).
  destruct (Hall "__call__" (or_intror (or_introl eq_refl))) as (c2 & Hc2 & H2).
  vm_compute in Hc1. injection Hc1 as <-.
  vm_compute in Hc2. injection Hc2 as <-.
  split; assumption.
Defined.

(** X4: whatever error [load_module] raises, [learn] raises that same
    error, and the agent and the world are as before the call. *)
Theorem learn_load_error_propagates task module force kwargs a w m e mm :
  fst (Agent.resolve_module (Agent.task_name_of task) module (a, w)) = Ok m ->
  ModuleManager.load_module m force (Agent.services_enabled a)
    (Agent.executors_enabled a) kwargs (module_manager w) = (Raised e, mm) ->
  Agent.learn task module force kwargs (a, w) = (Raised e, (a, w)).
Proof.
  intros Hres Hload. rewrite learn_unfold, Hres, Hload. reflexivity.
Qed.

Lemma learn_load_error_propagates_witness :
  Agent.learn (ByName "TextToImage") (Some "ClipdropTextToImage") true []
    (Samples.agent, Samples.world) =
  (Raised ServicePermissionRequired, (Samples.agent, Samples.world)).
Proof.
  exact (learn_load_error_propagates (ByName "TextToImage")
           (Some "ClipdropTextToImage") true [] Samples.agent Samples.world
           "ClipdropTextToImage" ServicePermissionRequired Samples.manager
           eq_refl eq_refl).
Defined.

(** X5: [api] never raises. It answers with the Task Registry's list for
    every registered task, whether or not the agent has learned or
    memorized it, with the memorized list for a memorized name that is not
    registered, and with [None] for every other name. *)
Theorem api_total self w task :
  (In task (Agent.learnable_tasks w) ->
   exists l, TaskHub.api (task_hub w) task = Ok l /\
             Agent.api self w task = Ok (Some l)) /\
  (~ In task (Agent.learnable_tasks w) ->
   In task (Agent.memorized_tasks self) ->
   exists l, get task (Agent._memorized_tasks self) = Some l /\
             Agent.api self w task = Ok (Some l)) /\
  (~ In task (Agent.learnable_tasks w) ->
   ~ In task (Agent.memorized_tasks self) ->
   Agent.api self w task = Ok None) /\
  (exists r, Agent.api self w task = Ok r).
Proof.
  unfold Agent.api. unfold Agent.learnable_tasks, Agent.memorized_tasks.
  rewrite existsb_eqb_mem.
  assert (Hhub : mem task (TaskHub.tasks (task_hub w)) = true ->
                 exists l, TaskHub.api (task_hub w) task = Ok l).
  { unfold mem, TaskHub.api.
    destruct (get task (TaskHub.tasks (task_hub w))); [eauto | discriminate]. }
  assert (Hmem : mem task (Agent._memorized_tasks self) = true ->
                 exists l, get task (Agent._memorized_tasks self) = Some l).
  { unfold mem.
    destruct (get task (Agent._memorized_tasks self)); [eauto | discriminate]. }
  split; [|split; [|split]].
  - intros Hin. apply mem_true_iff in Hin. destruct (Hhub Hin) as [l Hl].
    exists l. rewrite Hin, Hl. auto.
  - intros Hn Hin. apply mem_false_iff in Hn. apply mem_true_iff in Hin.
    destruct (Hmem Hin) as [l Hl]. exists l. rewrite Hn, Hin, Hl. auto.
  - intros Hn Hm. apply mem_false_iff in Hn. apply mem_false_iff in Hm.
    now rewrite Hn, Hm.
  - destruct (mem task (TaskHub.tasks (task_hub w))) eqn:E1.
    + destruct (Hhub eq_refl) as [l Hl]. rewrite Hl. eauto.
    + destruct (mem task (Agent._memorized_tasks self)) eqn:E2; [|eauto].
      destruct (Hmem eq_refl) as [l Hl]. rewrite Hl. eauto.
Qed.

Lemma api_total_witness :
  Agent.api Samples.agent Samples.world "Chat" = Ok (Some ["message"; "__call__"]) /\
  Agent.api Samples.agent Samples.world "Juggle" = Ok None.
Proof.
  destruct (api_total Samples.agent Samples.world "Chat") as (H1 & _).
  destruct (api_total Samples.agent Samples.world "Juggle") as (_ & _ & H3 & _).
  split.
  - destruct H1 as (l & Hl & Hapi); [vm_compute; auto|].
    vm_compute in Hl. injection Hl as <-. exact Hapi.
  - apply H3; vm_compute; intuition discriminate.
Defined.

(** X6: for a short-term module whose name is none of the attribute
    names of the class [Agent]: after [memorize(stm, actions)],
    [api(stm.name)] gives back the
    recorded list - the keys of [stm.api()], the characters of a string, or
    the list given - when the name is not a registered task; when it is,
    [api] keeps answering with the Task Registry's list. *)
Theorem memorize_then_api p stm actions a w :
  stms w !! p = Some stm ->
  dynamic_name (stm_name stm) = true ->
  let s' := snd (Agent.memorize p actions (a, w)) in
  (mem (stm_name stm) (TaskHub.tasks (task_hub w)) = false ->
   Agent.api (fst s') (snd s') (stm_name stm) =
     Ok (Some match actions with
              | NoActions => keys (stm_api stm)
              | ActionsStr str => chars str
              | ActionsList l => l
              end)) /\
  (mem (stm_name stm) (TaskHub.tasks (task_hub w)) = true ->
   Agent.api (fst s') (snd s') (stm_name stm) = Agent.api a w (stm_name stm)).
Proof.
  intros H _ s'. subst s'. rewrite (memorize_unfold p actions stm) by exact H.
  unfold Agent.api. unfold Agent.memorized_tasks. simpl.
  split; intros Hm; rewrite Hm.
  - now rewrite existsb_eqb_mem, mem_set_eq, get_set_eq.
  - reflexivity.
Qed.

Lemma memorize_then_api_witness :
  let s' := snd (Agent.memorize 0 (ActionsList ["bar"])
                   (Samples.agent, Samples.world)) in
  Agent.api (fst s') (snd s') "Scratch" = Ok (Some ["bar"]).
Proof.
  exact (proj1 (memorize_then_api 0 Samples.scratch (ActionsList ["bar"])
                  Samples.agent Samples.world eq_refl eq_refl) eq_refl).
Defined.

(** X7: for a short-term module whose name is none of the attribute
    names of the class [Agent]: [memorize] succeeds and
    touches nothing but the attribute and the memorized
    entry under [stm.name]: known tasks, flags, sub-agents, the other
    attributes, the other memorized entries and the world stay as they
    were. A name memorized before keeps its place in [memorized_tasks], a
    new one goes last, and memorizing the same module again changes
    nothing. *)
Theorem memorize_frame p stm actions a w :
  stms w !! p = Some stm ->
  dynamic_name (stm_name stm) = true ->
  let s' := snd (Agent.memorize p actions (a, w)) in
  snd s' = w /\
  Agent._known_tasks (fst s') = Agent._known_tasks a /\
  Agent.services_enabled (fst s') = Agent.services_enabled a /\
  Agent.executors_enabled (fst s') = Agent.executors_enabled a /\
  Agent.subagents (fst s') = Agent.subagents a /\
  (forall n, n <> stm_name stm ->
     get n (Agent.attrs (fst s')) = get n (Agent.attrs a) /\
     get n (Agent._memorized_tasks (fst s')) = get n (Agent._memorized_tasks a)) /\
  Agent.memorized_tasks (fst s') =
    (if mem (stm_name stm) (Agent._memorized_tasks a)
     then Agent.memorized_tasks a
     else Agent.memorized_tasks a ++ [stm_name stm]) /\
  snd (Agent.memorize p actions s') = s'.
Proof.
  intros H _ s'. subst s'. rewrite (memorize_unfold p actions stm) by exact H.
  simpl. repeat split; auto.
  - apply get_set_ne. congruence.
  - apply get_set_ne. congruence.
  - unfold Agent.memorized_tasks. simpl. apply keys_set.
  - rewrite (memorize_unfold p actions stm) by exact H. simpl.
    unfold Agent.with_memorized_tasks, Agent.with_attrs. simpl.
    now rewrite !set_set_eq.
Qed.

Lemma memorize_frame_witness :
  let s' := snd (Agent.memorize 0 NoActions (Samples.agent, Samples.world)) in
  Agent.memorized_tasks (fst s') = ["Scratch"] /\
  snd (Agent.memorize 0 NoActions s') = s'.
Proof.
  intros s'.
  destruct (memorize_frame 0 Samples.scratch NoActions Samples.agent
              Samples.world eq_refl eq_refl) as (_ & _ & _ & _ & _ & _ & Hk & Hidem).
  split; [exact Hk | exact Hidem].
Defined.

(** X8: [learn] and [memorize] set the same attributes of the agent. For
    a name that is none of the attribute names of the class [Agent]: when
    a short-term module is memorized under the name of a task learned
    before, the attribute of that name denotes the short-term module from
    then on; the task is still among the known tasks and its Actor is still
    in the store, no longer reachable from the agent under that name. *)
Theorem memorize_over_learned_task task module force kwargs a w a1 w1 p stm
  actions :
  dynamic_name (Agent.task_name_of task) = true ->
  Agent.learn task module force kwargs (a, w) = (Ok tt, (a1, w1)) ->
  stms w1 !! p = Some stm ->
  stm_name stm = Agent.task_name_of task ->
  let s2 := snd (Agent.memorize p actions (a1, w1)) in
  get (Agent.task_name_of task) (Agent.attrs a1) =
    Some (VActor (length (objects w))) /\
  get (Agent.task_name_of task) (Agent.attrs (fst s2)) = Some (VStm p) /\
  getattr_stm (fst s2) (snd s2) (Agent.task_name_of task) = Some stm /\
  In (Agent.task_name_of task) (Agent.known_tasks (fst s2)) /\
  In (Agent.task_name_of task) (Agent.memorized_tasks (fst s2)) /\
  objects (snd s2) !! length (objects w) = objects w1 !! length (objects w) /\
  is_Some (objects w1 !! length (objects w)).
Proof.
  intros _ Hlearn Hp Hname s2. subst s2.
  rewrite (memorize_unfold p actions stm) by exact Hp. rewrite Hname.
  apply learn_ok_inv in Hlearn.
  destruct Hlearn as (m & inst & mm & methods & ca & oa & _ & _ & _ & _ & E).
  injection E as -> ->.
  unfold getattr_stm, Agent.known_tasks, Agent.memorized_tasks. simpl.
  rewrite !get_set_eq. simpl in Hp. rewrite Hp.
  repeat split; auto.
  - apply In_keys_set. auto.
  - apply In_keys_set. auto.
  - rewrite list_lookup_middle by reflexivity. eauto.
Qed.

Lemma memorize_over_learned_task_witness :
  let s1 := snd (Agent.learn (ByName "Scratch") (Some "EchoBot") false []
                   (Samples.agent,
                    mkWorld
                      (TaskHub.mk
                         [("Scratch", TaskHub.mkTaskInfo ["message"] [] [])])
                      Samples.manager [] [] [Samples.scratch])) in
  let s2 := snd (Agent.memorize 0 NoActions s1) in
  get "Scratch" (Agent.attrs (fst s1)) = Some (VActor 0) /\
  get "Scratch" (Agent.attrs (fst s2)) = Some (VStm 0) /\
  In "Scratch" (Agent.known_tasks (fst s2)).
Proof.
  intros s1 s2.
  assert (H : Agent.learn (ByName "Scratch") (Some "EchoBot") false []
                (Samples.agent,
                 mkWorld
                   (TaskHub.mk
                      [("Scratch", TaskHub.mkTaskInfo ["message"] [] [])])
                   Samples.manager [] [] [Samples.scratch])
              = (Ok tt, (fst s1, snd s1)))
    by (vm_compute; reflexivity).
  destruct (memorize_over_learned_task (ByName "Scratch") (Some "EchoBot")
              false [] _ _ _ _ 0 Samples.scratch NoActions eq_refl H eq_refl
              eq_refl) as (H1 & H2 & _ & H4 & _).
  repeat split; assumption.
Defined.

(** X9: [tasks] is [known_tasks] followed by [memorized_tasks]: a name
    occurs in it once for being learned and once for being memorized, so a
    name that is both occurs twice. *)
Theorem tasks_count a t :
  wf (Agent._known_tasks a) ->
  wf (Agent._memorized_tasks a) ->
  Agent.tasks a = Agent.known_tasks a ++ Agent.memorized_tasks a /\
  count_occ string_dec (Agent.tasks a) t =
    (if mem t (Agent._known_tasks a) then 1 else 0) +
    (if mem t (Agent._memorized_tasks a) then 1 else 0).
Proof.
  intros Hk Hm. split; [reflexivity|].
  unfold Agent.tasks, Agent.known_tasks, Agent.memorized_tasks.
  rewrite count_occ_app, !count_occ_keys by assumption. reflexivity.
Qed.

Lemma tasks_count_witness :
  let s1 := snd (Agent.learn (ByName "Scratch") (Some "EchoBot") false []
                   (Samples.agent,
                    mkWorld
                      (TaskHub.mk
                         [("Scratch", TaskHub.mkTaskInfo ["message"] [] [])])
                      Samples.manager [] [] [Samples.scratch])) in
  let s2 := snd (Agent.memorize 0 NoActions s1) in
  count_occ string_dec (Agent.tasks (fst s2)) "Scratch" = 2.
Proof.
  intros s1 s2.
  refine (proj2 (tasks_count (fst s2) "Scratch" _ _)).
  - vm_compute. repeat constructor. intros [].
  - vm_compute. repeat constructor. intros [].
Defined.

(** X10: spawning a sub-agent under a name that is free and removing it
    again gives back the parent exactly as it was. *)
Theorem spawn_then_remove name es ee a :
  mem name (Agent.subagents a) = false ->
  exists a1,
    Agent.spawn_subagent name es ee a = (Ok tt, a1) /\
    Agent.remove_subagent name a1 = (Ok tt, a).
Proof.
  intros H. unfold Agent.spawn_subagent. rewrite H. eexists.
  split; [reflexivity|].
  unfold Agent.remove_subagent, del. simpl.
  rewrite mem_set_eq, remove_set_fresh by exact H.
  now destruct a.
Qed.

Lemma spawn_then_remove_witness :
  Agent.remove_subagent "x"
    (snd (Agent.spawn_subagent "x" (Some true) None Samples.agent)) =
  (Ok tt, Samples.agent).
Proof.
  destruct (spawn_then_remove "x" (Some true) None Samples.agent eq_refl)
    as (a1 & E & Hrm).
  rewrite E. exact Hrm.
Defined.

(** X11: [spawn_subagent] and [remove_subagent], whatever their outcome,
    touch only the entry under the given name: the other sub-agents, and
    the parent's name, tasks, flags and attributes, stay as they were. *)
Theorem subagent_ops_frame name es ee a :
  let a1 := snd (Agent.spawn_subagent name es ee a) in
  let a2 := snd (Agent.remove_subagent name a) in
  (forall other, other <> name ->
     get other (Agent.subagents a1) = get other (Agent.subagents a) /\
     get other (Agent.subagents a2) = get other (Agent.subagents a)) /\
  (Agent.name a1 = Agent.name a /\
   Agent._known_tasks a1 = Agent._known_tasks a /\
   Agent._memorized_tasks a1 = Agent._memorized_tasks a /\
   Agent.services_enabled a1 = Agent.services_enabled a /\
   Agent.executors_enabled a1 = Agent.executors_enabled a /\
   Agent.attrs a1 = Agent.attrs a) /\
  (Agent.name a2 = Agent.name a /\
   Agent._known_tasks a2 = Agent._known_tasks a /\
   Agent._memorized_tasks a2 = Agent._memorized_tasks a /\
   Agent.services_enabled a2 = Agent.services_enabled a /\
   Agent.executors_enabled a2 = Agent.executors_enabled a /\
   Agent.attrs a2 = Agent.attrs a).
Proof.
  intros a1 a2. subst a1 a2.
  unfold Agent.spawn_subagent, Agent.remove_subagent, del.
  destruct (mem name (Agent.subagents a)); simpl; repeat split; auto.
  - apply get_remove_ne. congruence.
  - apply get_set_ne. congruence.
Qed.

(** X12: the permission switches. [enable_services] and
    [disable_services] turn the services flag on and off whatever it was,
    [enable_executors] and [disable_executors] do so for the executors
    flag; each of the four leaves the other flag, the name, the known and
    memorized tasks, the attributes and the sub-agents as they were, so
    that nothing learned is lost when a permission is withdrawn. The
    guards succeed exactly when their flag is on, raise
    ServicePermissionRequired or ExecutorPermissionRequired otherwise, and
    never change the agent. *)
Theorem permission_switches a :
  (Agent._assert_services_enabled (Agent.enable_services a) =
     (Ok tt, Agent.enable_services a) /\
   Agent._assert_services_enabled (Agent.disable_services a) =
     (Raised ServicePermissionRequired, Agent.disable_services a) /\
   Agent._assert_executors_enabled (Agent.enable_executors a) =
     (Ok tt, Agent.enable_executors a) /\
   Agent._assert_executors_enabled (Agent.disable_executors a) =
     (Raised ExecutorPermissionRequired, Agent.disable_executors a)) /\
  (snd (Agent._assert_services_enabled a) = a /\
   snd (Agent._assert_executors_enabled a) = a /\
   (fst (Agent._assert_services_enabled a) = Ok tt <->
    Agent.services_enabled a = true) /\
   (fst (Agent._assert_executors_enabled a) = Ok tt <->
    Agent.executors_enabled a = true)) /\
  (Agent.services_enabled (Agent.enable_services a) = true /\
   Agent.services_enabled (Agent.disable_services a) = false /\
   Agent.executors_enabled (Agent.enable_executors a) = true /\
   Agent.executors_enabled (Agent.disable_executors a) = false) /\
  (forall switch,
     In switch [Agent.enable_services; Agent.disable_services] ->
     Agent.executors_enabled (switch a) = Agent.executors_enabled a /\
     Agent.name (switch a) = Agent.name a /\
     Agent._known_tasks (switch a) = Agent._known_tasks a /\
     Agent._memorized_tasks (switch a) = Agent._memorized_tasks a /\
     Agent.attrs (switch a) = Agent.attrs a /\
     Agent.subagents (switch a) = Agent.subagents a) /\
  (forall switch,
     In switch [Agent.enable_executors; Agent.disable_executors] ->
     Agent.services_enabled (switch a) = Agent.services_enabled a /\
     Agent.name (switch a) = Agent.name a /\
     Agent._known_tasks (switch a) = Agent._known_tasks a /\
     Agent._memorized_tasks (switch a) = Agent._memorized_tasks a /\
     Agent.attrs (switch a) = Agent.attrs a /\
     Agent.subagents (switch a) = Agent.subagents a).
Proof.
  unfold Agent._assert_services_enabled, Agent._assert_executors_enabled,
    Agent.services_enabled, Agent.executors_enabled.
  split; [|split; [|split; [|split]]].
  - repeat split.
  - destruct (Agent._allow_services a), (Agent._allow_executors a); simpl;
      repeat split; auto; discriminate.
  - repeat split.
  - intros switch [<-|[<-|[]]]; repeat split.
  - intros switch [<-|[<-|[]]]; repeat split.
Qed.

(** X13: a task that [learn] has learned is one of [learnable_tasks], and
    [learn] keeps every known task learnable. *)
Theorem learned_tasks_are_learnable task module force kwargs a w a' w' :
  Agent.learn task module force kwargs (a, w) = (Ok tt, (a', w')) ->
  In (Agent.task_name_of task) (Agent.learnable_tasks w') /\
  ((forall t, In t (Agent.known_tasks a) -> In t (Agent.learnable_tasks w)) ->
   forall t, In t (Agent.known_tasks a') -> In t (Agent.learnable_tasks w')).
Proof.
  intros H. apply learn_ok_inv in H.
  destruct H as (m & inst & mm & methods & ca & oa & _ & _ & Hapi & _ & E).
  injection E as -> ->.
  assert (Hin : In (Agent.task_name_of task) (Agent.learnable_tasks w)).
  { unfold Agent.learnable_tasks, TaskHub.api in *.
    destruct (get (Agent.task_name_of task) (TaskHub.tasks (task_hub w)))
      eqn:Hg; [|discriminate].
    eapply get_Some_In; eauto. }
  unfold Agent.learnable_tasks, Agent.known_tasks in *. simpl.
  split; [exact Hin|].
  intros Hall t Ht. apply In_keys_set in Ht. destruct Ht as [->|Ht]; auto.
Qed.

Lemma learned_tasks_are_learnable_witness :
  let s' := snd (Agent.learn (ByName "Chat") None false []
                   (Samples.agent, Samples.world)) in
  In "Chat" (Agent.learnable_tasks (snd s')) /\
  (In "Chat" (Agent.known_tasks (fst s')) ->
   In "Chat" (Agent.learnable_tasks (snd s'))).
Proof.
  intros s'.
  assert (H : Agent.learn (ByName "Chat") None false []
                (Samples.agent, Samples.world) = (Ok tt, (fst s', snd s')))
    by (vm_compute; reflexivity).
  destruct (learned_tasks_are_learnable _ _ _ _ _ _ _ _ H) as [H1 H2].
  split; [exact H1|].
  apply H2. intros t [].
Defined.

(** X14: [memorize_from_context] never returns a context. When the slot
    of the context holds a short-term module whose name is none of the
    attribute names of the class [Agent], it memorizes the module as
    [memorize] does without actions and then raises AttributeError, because
    the class [Chat] has no [Message]: the agent has the module memorized,
    and no message has been appended to the conversation. *)
Theorem memorize_from_context_raises context p stm a w :
  short_term_memory context = Some p ->
  stms w !! p = Some stm ->
  dynamic_name (stm_name stm) = true ->
  memorize_from_context context (a, w) =
    (Raised (AttributeError "Message"),
     snd (Agent.memorize p NoActions (a, w))) /\
  get (stm_name stm)
    (Agent._memorized_tasks
       (fst (snd (memorize_from_context context (a, w))))) =
    Some (keys (stm_api stm)) /\
  snd (snd (memorize_from_context context (a, w))) = w /\
  (forall c s result,
     fst (memorize_from_context c s) <> Ok result).
Proof.
  intros Hc Hp _.
  assert (E : memorize_from_context context (a, w) =
              (Raised (AttributeError "Message"),
               snd (Agent.memorize p NoActions (a, w)))).
  { unfold memorize_from_context. rewrite Hc. unfold bind.
    rewrite (memorize_unfold p NoActions stm) by exact Hp. reflexivity. }
  split; [exact E|]. rewrite E.
  rewrite (memorize_unfold p NoActions stm) by exact Hp. simpl.
  rewrite get_set_eq. repeat split.
  intros c s result. unfold memorize_from_context.
  destruct (short_term_memory c); [|discriminate].
  unfold bind, raise. destruct (Agent.memorize n NoActions s) as [[[]|e] s1];
    discriminate.
Qed.

Lemma memorize_from_context_raises_witness :
  let r := memorize_from_context (mkContext (Some 0) [("user", "hello")])
             (Samples.agent, Samples.world) in
  fst r = Raised (AttributeError "Message") /\
  get "Scratch" (Agent._memorized_tasks (fst (snd r))) = Some ["foo"; "bar"].
Proof.
  intros r.
  destruct (memorize_from_context_raises
              (mkContext (Some 0) [("user", "hello")]) 0 Samples.scratch
              Samples.agent Samples.world eq_refl eq_refl eq_refl)
    as (E & Hm & _).
  split; [unfold r; rewrite E; reflexivity | exact Hm].
Defined.

(** X15: [memorize_from_context] on a context whose slot is empty fails
    with AttributeError before anything is changed: the agent and the
    world are as before and no message is appended. *)
Theorem memorize_from_context_empty context s :
  short_term_memory context = None ->
  memorize_from_context context s = (Raised (AttributeError "name"), s).
Proof.
  intros H. unfold memorize_from_context. now rewrite H.
Qed.

Lemma memorize_from_context_empty_witness :
  memorize_from_context (mkContext None []) (Samples.agent, Samples.world) =
  (Raised (AttributeError "name"), (Samples.agent, Samples.world)).
Proof.
  exact (memorize_from_context_empty (mkContext None [])
           (Samples.agent, Samples.world) eq_refl).
Defined.

(** * The chunks of a direct-message reply *)

Section Chunks.
Import DiscordBot.

Lemma string_app_nil_r s : (s ++ "")%string = s.
Proof. induction s; simpl; congruence. Qed.

Lemma string_app_assoc s1 s2 s3 :
  ((s1 ++ s2) ++ s3)%string = (s1 ++ s2 ++ s3)%string.
Proof. induction s1; simpl; congruence. Qed.

Lemma string_app_length s1 s2 :
  String.length (s1 ++ s2) = String.length s1 + String.length s2.
Proof. induction s1; simpl; auto. Qed.

Lemma take_length n : forall s,
  String.length (take n s) = Nat.min n (String.length s).
Proof. induction n; intros [|c r]; simpl; auto. Qed.

Lemma take_drop n : forall s, (take n s ++ drop n s)%string = s.
Proof. induction n; intros [|c r]; simpl; auto. now rewrite IHn. Qed.

Lemma take_all n : forall s, String.length s <= n -> take n s = s.
Proof.
  induction n; intros [|c r]; simpl; auto; intros H; [lia|].
  rewrite IHn; auto. lia.
Qed.

Lemma take_add a : forall b s,
  take (a + b) s = (take a s ++ take b (drop a s))%string.
Proof.
  induction a; intros b s; simpl.
  - destruct s; reflexivity.
  - destruct s as [|c r]; simpl.
    + now destruct b.
    + now rewrite IHa.
Qed.

Lemma join_app l1 l2 : join (l1 ++ l2) = (join l1 ++ join l2)%string.
Proof.
  induction l1 as [|x r IH]; simpl; auto.
  now rewrite IH, string_app_assoc.
Qed.

(** The first [k] chunks of width [m] are the first [k * m] characters. *)
Lemma join_slices m s k :
  join (map (fun idx => slice s (idx * m) ((idx + 1) * m)) (seq 0 k)) =
  take (k * m) s.
Proof.
  induction k as [|k IH].
  - simpl. now destruct s.
  - rewrite seq_S, map_app, join_app, IH. simpl.
    rewrite string_app_nil_r. unfold slice.
    replace ((k + 1) * m - k * m) with m by lia.
    replace (m + k * m) with (k * m + m) by lia.
    now rewrite take_add.
Qed.

Lemma max_len_pos : 0 < max_len.
Proof. unfold max_len. lia. Qed.

(** X16: a reply is sent as at least one message, also when it is empty;
    no message is longer than 2000 characters; a reply shorter than 2000
    characters is sent whole, as one message. *)
Theorem dm_chunks_bounds text :
  length (dm_chunks text) = Nat.max (String.length text / max_len) 1 /\
  1 <= length (dm_chunks text) /\
  (forall c, In c (dm_chunks text) -> String.length c <= max_len) /\
  (String.length text < max_len -> dm_chunks text = [text]) /\
  dm_chunks "" = [""].
Proof.
  assert (Hlen : length (dm_chunks text)
                 = Nat.max (String.length text / max_len) 1).
  { unfold dm_chunks. now rewrite length_map, length_seq. }
  assert (Hsmall : forall t, String.length t < max_len -> dm_chunks t = [t]).
  { intros t Ht. unfold dm_chunks. rewrite Nat.div_small by exact Ht.
    change (Nat.max 0 1) with 1. cbn [seq map]. unfold slice.
    rewrite Nat.mul_0_l, Nat.sub_0_r.
    replace ((0 + 1) * max_len) with max_len by lia.
    change (drop 0 t) with t. rewrite take_all by lia. reflexivity. }
  split; [exact Hlen|]. split; [lia|]. split; [|split].
  - intros c Hc. unfold dm_chunks in Hc. apply in_map_iff in Hc.
    destruct Hc as (idx & <- & _). unfold slice. rewrite take_length. lia.
  - apply Hsmall.
  - apply Hsmall. simpl. apply max_len_pos.
Qed.

(** X17: the messages sent, one after the other, are the beginning of the
    reply. They are the whole reply exactly when it is shorter than 2000
    characters or its length is a multiple of 2000; otherwise the last
    [len mod 2000] characters are not sent. *)
Theorem dm_chunks_coverage text :
  let sent := join (dm_chunks text) in
  let n := String.length text in
  text = (sent ++ drop (String.length sent) text)%string /\
  String.length sent = (if n <? max_len then n else n - n mod max_len)%nat /\
  (sent = text <-> n < max_len \/ n mod max_len = 0) /\
  (max_len <= n -> n mod max_len <> 0 ->
   String.length (drop (String.length sent) text) = n mod max_len).
Proof.
  intros sent n.
  assert (Hsent : sent = take (Nat.max (n / max_len) 1 * max_len) text).
  { unfold sent, dm_chunks. apply join_slices. }
  pose proof max_len_pos as Hpos.
  pose proof (Nat.div_mod_eq n max_len) as Hdm.
  pose proof (Nat.mod_upper_bound n max_len ltac:(lia)) as Hmod.
  assert (Hl : String.length sent
               = (if n <? max_len then n else n - n mod max_len)%nat).
  { rewrite Hsent, take_length. fold n.
    destruct (Nat.ltb_spec n max_len) as [Hlt|Hge].
    - rewrite Nat.div_small by exact Hlt. change (Nat.max 0 1) with 1. lia.
    - assert (0 < n / max_len) by (apply Nat.div_str_pos; lia).
      rewrite Nat.max_l by lia. nia. }
  assert (Hpre : text = (sent ++ drop (String.length sent) text)%string).
  { rewrite Hsent at 1. rewrite Hsent, take_length. fold n.
    destruct (Nat.min_spec (Nat.max (n / max_len) 1 * max_len) n)
      as [[_ ->]|[Hle ->]].
    - now rewrite take_drop.
    - rewrite (take_all _ text) by (fold n; lia).
      pose proof (take_drop n text) as Htd.
      rewrite (take_all n text) in Htd by (fold n; lia). now rewrite Htd. }
  assert (Hdrop : String.length (drop (String.length sent) text)
                  = n - String.length sent).
  { pose proof (f_equal String.length Hpre) as Hf.
    rewrite string_app_length in Hf. fold n in Hf. lia. }
  split; [exact Hpre|]. split; [exact Hl|]. split.
  - split.
    + intros Heq. rewrite Heq in Hl. fold n in Hl.
      destruct (Nat.ltb_spec n max_len); [auto | right; lia].
    + intros Hcase.
      assert (Hfull : String.length sent = n).
      { rewrite Hl. destruct (Nat.ltb_spec n max_len); lia. }
      rewrite Hfull in Hpre.
      pose proof (take_drop n text) as Htd.
      rewrite (take_all n text) in Htd by (fold n; lia).
      assert (Hnil : drop n text = "").
      { pose proof (f_equal String.length Htd) as Hf.
        rewrite string_app_length in Hf. fold n in Hf.
        destruct (drop n text); [reflexivity | simpl in Hf; lia]. }
      rewrite Hnil, string_app_nil_r in Hpre. auto.
  - intros Hge Hne. rewrite Hdrop, Hl.
    destruct (Nat.ltb_spec n max_len); lia.
Qed.

End Chunks.

(** * The directories [initial_dosaku_setup] creates *)

Section SetupFacts.
Import Setup.
Variable ancestors : string -> list string.
Variable refused : string -> FS -> bool.

Lemma path_exists_In p fs : path_exists p fs = true <-> In p fs.
Proof.
  unfold path_exists. rewrite existsb_exists. split.
  - intros (x & Hx & E). apply String.eqb_eq in E. now subst.
  - intros H. exists p. split; auto. apply String.eqb_refl.
Qed.

Lemma path_exists_false p fs : path_exists p fs = false <-> ~ In p fs.
Proof.
  rewrite <- path_exists_In. destruct (path_exists p fs); split; congruence.
Qed.

(** What the first loop has done when it ends without an error: it has
    kept what existed; every path it visited exists; what it added to
    [new_dirs] are visited paths that did not exist, each once. *)
Lemma make_missing_spec d names : forall fs nd fs' nd',
  make_missing ancestors refused names d fs nd = Done (fs', nd') ->
  exists created,
    nd' = nd ++ created /\
    (forall p, In p fs -> In p fs') /\
    (forall n p, In n names -> get n d = Some p -> In p fs') /\
    (forall p, In p created ->
       ~ In p fs /\ In p fs' /\ exists n, In n names /\ get n d = Some p) /\
    List.NoDup created /\
    length created <= length names.
Proof.
  induction names as [|n r IH]; intros fs nd fs' nd' E; simpl in E.
  - injection E as <- <-. exists []. rewrite app_nil_r.
    split; [reflexivity|]. split; [auto|]. split; [intros n p []|].
    split; [intros p []|]. split; [constructor | simpl; lia].
  - destruct (get n d) as [p|] eqn:Hp; [|discriminate].
    destruct (path_exists p fs) eqn:Hex; simpl in E.
    + apply path_exists_In in Hex.
      destruct (IH _ _ _ _ E) as (created & -> & Hkeep & Hvis & Hcr & Hnd & Hlen).
      exists created. split; [reflexivity|]. split; [exact Hkeep|].
      split; [|split; [|split]].
      * intros n0 p0 [<-|Hn0] Hg; [|eauto].
        rewrite Hp in Hg. injection Hg as <-. auto.
      * intros p0 Hp0. destruct (Hcr p0 Hp0) as (H1 & H2 & n0 & Hn0 & Hg).
        split; [auto|]. split; [exact H2|].
        exists n0. split; [right; exact Hn0 | exact Hg].
      * exact Hnd.
      * simpl. lia.
    + unfold makedirs in E. rewrite Hex in E.
      destruct (refused p fs); [discriminate|].
      apply path_exists_false in Hex.
      set (fs1 := fs ++ List.filter (fun q => negb (path_exists q fs))
                          (ancestors p) ++ [p]) in E.
      destruct (IH _ _ _ _ E) as (created & -> & Hkeep & Hvis & Hcr & Hnd & Hlen).
      assert (Hfs1 : forall q, In q fs -> In q fs1)
        by (intros q Hq; unfold fs1; apply in_or_app; auto).
      assert (Hp1 : In p fs1).
      { unfold fs1. apply in_or_app. right. apply in_or_app. right.
        left. reflexivity. }
      exists (p :: created). rewrite <- app_assoc.
      split; [reflexivity|]. split; [auto|].
      split; [|split; [|split]].
      * intros n0 p0 [<-|Hn0] Hg; [|eauto].
        rewrite Hp in Hg. injection Hg as <-. auto.
      * intros p0 [<-|Hp0].
        -- split; [exact Hex|]. split; [auto|].
           exists n. split; [left; reflexivity | exact Hp].
        -- destruct (Hcr p0 Hp0) as (H1 & H2 & n0 & Hn0 & Hg).
           split; [auto|]. split; [exact H2|].
        exists n0. split; [right; exact Hn0 | exact Hg].
      * constructor; [|exact Hnd].
        intros Hin. destruct (Hcr p Hin) as (H1 & _). auto.
      * simpl. lia.
Qed.

(** When every path it visits exists, the first loop creates nothing. *)
Lemma make_missing_all_exist d names : forall fs nd,
  (forall n, In n names -> exists p, get n d = Some p /\ In p fs) ->
  make_missing ancestors refused names d fs nd = Done (fs, nd).
Proof.
  induction names as [|n r IH]; intros fs nd Hall; simpl; [reflexivity|].
  destruct (Hall n (or_introl eq_refl)) as (p & Hp & Hin).
  rewrite Hp. apply path_exists_In in Hin. rewrite Hin. simpl.
  apply IH. intros n0 Hn0. apply Hall. right. exact Hn0.
Qed.

Lemma keys_have_values (d : dict string) n :
  In n (keys d) -> exists p, get n d = Some p.
Proof.
  intros H. destruct (get n d) eqn:E; [eauto|].
  apply get_None_notin in E. tauto.
Qed.

Lemma string_app_inj_l pre : forall a b,
  (pre ++ a)%string = (pre ++ b)%string -> a = b.
Proof. induction pre; simpl; intros a0 b0 H; [exact H|]. injection H; auto. Qed.

Lemma NoDup_map_prefix pre (l : list string) :
  List.NoDup l -> List.NoDup (map (fun x => (pre ++ x)%string) l).
Proof.
  induction 1 as [|x l Hx Hl IH]; simpl; constructor; auto.
  intros Hin. apply in_map_iff in Hin. destruct Hin as (y & Hy & Hin).
  apply string_app_inj_l in Hy. subst. auto.
Qed.

(** The whole of [initial_dosaku_setup], when it returns: what the
    directories it reports are. *)
Lemma setup_spec dir_paths fs fs' log :
  initial_dosaku_setup ancestors refused dir_paths fs = Done (fs', log) ->
  exists created,
    log = map (fun dir => ("Created new directory: " ++ dir)%string) created /\
    (forall p, In p fs -> In p fs') /\
    (forall n p, get n dir_paths = Some p -> In p fs') /\
    (forall p, In p created ->
       ~ In p fs /\ In p fs' /\ exists n, get n dir_paths = Some p) /\
    List.NoDup created /\
    length created <= length (keys dir_paths).
Proof.
  unfold initial_dosaku_setup. intros E.
  destruct (make_missing ancestors refused (keys dir_paths) dir_paths fs [])
    as [[fs1 nd]|e] eqn:Em; [|discriminate].
  assert (Hres : fs' = fs1 /\
                 log = map (fun dir => ("Created new directory: " ++ dir)%string)
                         nd) by (split; congruence).
  destruct Hres as [-> ->].
  destruct (make_missing_spec _ _ _ _ _ _ Em)
    as (created & Hnd' & Hkeep & Hvis & Hcr & Hnd & Hlen).
  simpl in Hnd'. subst nd. exists created.
  split; [reflexivity|]. split; [exact Hkeep|].
  split; [|split; [|split]]; auto.
  - intros n p Hg. apply (Hvis n p); auto. eapply get_Some_In; eauto.
  - intros p Hp. destruct (Hcr p Hp) as (H1 & H2 & n & _ & Hg). eauto.
Qed.

(** X18: when [initial_dosaku_setup] returns, every configured directory
    exists and everything that existed before the run still does. *)
Theorem setup_creates_all dir_paths fs fs' log :
  initial_dosaku_setup ancestors refused dir_paths fs = Done (fs', log) ->
  (forall name path, get name dir_paths = Some path ->
     path_exists path fs' = true) /\
  (forall path, path_exists path fs = true -> path_exists path fs' = true).
Proof.
  intros E. destruct (setup_spec _ _ _ _ E) as (created & _ & Hkeep & Hvis & _).
  split.
  - intros name path Hg. apply path_exists_In. eauto.
  - intros path Hx. apply path_exists_In, Hkeep. now apply path_exists_In.
Qed.

(** X19: when every configured directory exists, [initial_dosaku_setup]
    creates nothing and logs nothing; so a second run right after a first
    one leaves the file system as the first left it and logs nothing. *)
Theorem setup_idempotent dir_paths fs :
  ((forall name path, get name dir_paths = Some path ->
      path_exists path fs = true) ->
   initial_dosaku_setup ancestors refused dir_paths fs = Done (fs, [])) /\
  (forall fs' log,
     initial_dosaku_setup ancestors refused dir_paths fs = Done (fs', log) ->
     initial_dosaku_setup ancestors refused dir_paths fs' = Done (fs', [])).
Proof.
  assert (Hfix : forall fs0,
    (forall name path, get name dir_paths = Some path -> In path fs0) ->
    initial_dosaku_setup ancestors refused dir_paths fs0 = Done (fs0, [])).
  { intros fs0 Hall. unfold initial_dosaku_setup.
    rewrite make_missing_all_exist; [reflexivity|].
    intros n Hn. destruct (keys_have_values dir_paths n Hn) as [p Hp]. eauto. }
  split.
  - intros Hall. apply Hfix. intros n p Hg. apply path_exists_In. eauto.
  - intros fs' log E. apply Hfix.
    destruct (setup_spec _ _ _ _ E) as (created & _ & _ & Hvis & _). exact Hvis.
Qed.

(** X20: every line [initial_dosaku_setup] logs reports a configured
    directory that did not exist before the run and exists after it; no
    directory is reported twice, and there are at most as many lines as
    configured names. *)
Theorem setup_log_faithful dir_paths fs fs' log :
  initial_dosaku_setup ancestors refused dir_paths fs = Done (fs', log) ->
  List.NoDup log /\
  length log <= length (keys dir_paths) /\
  forall line, In line log ->
    exists name path,
      get name dir_paths = Some path /\
      line = ("Created new directory: " ++ path)%string /\
      path_exists path fs = false /\
      path_exists path fs' = true.
Proof.
  intros E.
  destruct (setup_spec _ _ _ _ E) as (created & -> & _ & _ & Hcr & Hnd & Hlen).
  split; [now apply NoDup_map_prefix|].
  split; [now rewrite length_map|].
  intros line Hin. apply in_map_iff in Hin. destruct Hin as (p & <- & Hp).
  destruct (Hcr p Hp) as (H1 & H2 & n & Hg).
  exists n, p. repeat split; auto.
  - now apply path_exists_false.
  - now apply path_exists_In.
Qed.

End SetupFacts.

Lemma setup_idempotent_witness :
  Setup.initial_dosaku_setup Setup.sample_ancestors Setup.sample_refused
    Setup.sample_dir_paths
    ["/srv"; "/srv/dosaku"; "/srv/dosaku/data"; "/srv/dosaku/data/temp";
     "/srv/dosaku/logs"] =
  Setup.Done
    (["/srv"; "/srv/dosaku"; "/srv/dosaku/data"; "/srv/dosaku/data/temp";
      "/srv/dosaku/logs"], []).
Proof.
  refine (proj2 (setup_idempotent Setup.sample_ancestors Setup.sample_refused
                   Setup.sample_dir_paths ["/srv"]) _
            ["Created new directory: /srv/dosaku/data/temp";
             "Created new directory: /srv/dosaku/logs"] _).
  vm_compute. reflexivity.
Defined.

Lemma setup_log_faithful_witness :
  List.NoDup ["Created new directory: /srv/dosaku/data/temp";
              "Created new directory: /srv/dosaku/logs"].
Proof.
  refine (proj1 (setup_log_faithful Setup.sample_ancestors Setup.sample_refused
                   Setup.sample_dir_paths ["/srv"]
                   ["/srv"; "/srv/dosaku"; "/srv/dosaku/data";
                    "/srv/dosaku/data/temp"; "/srv/dosaku/logs"]
                   ["Created new directory: /srv/dosaku/data/temp";
                    "Created new directory: /srv/dosaku/logs"] _)).
  vm_compute. reflexivity.
Defined.

Lemma setup_creates_all_witness :
  Setup.path_exists "/srv/dosaku/data"
    ["/srv"; "/srv/dosaku"; "/srv/dosaku/data"; "/srv/dosaku/data/temp";
     "/srv/dosaku/logs"] = true.
Proof.
  refine (proj1 (setup_creates_all Setup.sample_ancestors Setup.sample_refused
                   Setup.sample_dir_paths ["/srv"]
                   ["/srv"; "/srv/dosaku"; "/srv/dosaku/data";
                    "/srv/dosaku/data/temp"; "/srv/dosaku/logs"]
                   ["Created new directory: /srv/dosaku/data/temp";
                    "Created new directory: /srv/dosaku/logs"] _)
            "DATA" "/srv/dosaku/data" eq_refl).
  vm_compute. reflexivity.
Defined.

(** * The further properties at sample inputs *)

Lemma learn_frame_witness :
  let s0 := snd (Agent.memorize 0 NoActions (Samples.agent, Samples.world)) in
  let s' := snd (Agent.learn (ByName "Chat") None false [] (fst s0, snd s0)) in
  get "Scratch" (Agent.attrs (fst s')) = Some (VStm 0) /\
  Agent.memorized_tasks (fst s') = ["Scratch"] /\
  stms (snd s') = [Samples.scratch].
Proof.
  intros s0 s'.
  destruct (learn_frame (ByName "Chat") None false [] (fst s0) (snd s0) eq_refl)
    as (_ & Hm & _ & _ & _ & Hattr & _ & Hstm & _).
  unfold s'. split; [|split].
  - rewrite (Hattr "Scratch"); [reflexivity | discriminate].
  - unfold Agent.memorized_tasks. rewrite Hm. reflexivity.
  - rewrite Hstm. reflexivity.
Defined.

Lemma subagent_ops_frame_witness :
  let a := snd (Agent.spawn_subagent "x" None None Samples.agent) in
  get "x" (Agent.subagents (snd (Agent.spawn_subagent "y" None None a))) =
    Some (Agent.init "x" false false) /\
  get "x" (Agent.subagents (snd (Agent.remove_subagent "y" a))) =
    Some (Agent.init "x" false false).
Proof.
  intros a.
  destruct (subagent_ops_frame "y" None None a) as (H & _).
  destruct (H "x") as [H1 H2]; [discriminate|].
  split; [rewrite H1 | rewrite H2]; reflexivity.
Defined.

Lemma permission_switches_witness :
  fst (Agent._assert_services_enabled Samples.service_agent) = Ok tt /\
  Agent._assert_executors_enabled (Agent.disable_executors Samples.service_agent)
    = (Raised ExecutorPermissionRequired,
       Agent.disable_executors Samples.service_agent) /\
  Agent.executors_enabled (Agent.disable_services Samples.service_agent) =
    Agent.executors_enabled Samples.service_agent.
Proof.
  destruct (permission_switches Samples.service_agent)
    as ((_ & _ & _ & H4) & (_ & _ & H7 & _) & _ & Hs & _).
  split; [apply H7; reflexivity | split; [exact H4|]].
  apply (Hs Agent.disable_services). right. left. reflexivity.
Defined.

Lemma dm_chunks_bounds_witness :
  DiscordBot.dm_chunks "hello" = ["hello"] /\
  length (DiscordBot.dm_chunks long_reply) = 2.
Proof.
  destruct (dm_chunks_bounds "hello") as (_ & _ & _ & Hsmall & _).
  destruct (dm_chunks_bounds long_reply) as (Hlen & _).
  split.
  - apply Hsmall. apply Nat.ltb_lt. vm_compute. reflexivity.
  - rewrite Hlen. vm_compute. reflexivity.
Defined.

Lemma dm_chunks_coverage_witness :
  String.length
    (DiscordBot.drop
       (String.length (DiscordBot.join (DiscordBot.dm_chunks long_reply)))
       long_reply) = 500 /\
  DiscordBot.join (DiscordBot.dm_chunks "hello") = "hello".
Proof.
  destruct (dm_chunks_coverage long_reply) as (_ & _ & _ & Hlost).
  destruct (dm_chunks_coverage "hello") as (_ & _ & Hwhole & _).
  split.
  - rewrite Hlost.
    + vm_compute. reflexivity.
    + apply Nat.leb_le. vm_compute. reflexivity.
    + intros H. vm_compute in H. discriminate H.
  - apply Hwhole. left. apply Nat.ltb_lt. vm_compute. reflexivity.
Defined.
